(** * pbench server query APIs: request schema, query assembly, postprocessing

    A shallow embedding of
      - lib/pbench/server/api/resources/query_apis/datasets_list.py
      - lib/pbench/server/api/resources/query_apis/elasticsearch_api.py
    together with the request-schema layer they are built on
    (ParamType / Parameter / Schema), whose behaviour is exercised by
      - lib/pbench/test/unit/server/test_schema.py

    Python values are a closed inductive type; dictionaries are finite maps
    keyed by strings; a raised exception is the left injection of a sum. *)

From Stdlib Require Import ZArith String List.
From stdpp Require Import base option gmap strings list fin_maps.

Local Open Scope string_scope.
Set Warnings "-register-all".

(** ** Python values *)

(** A naive [datetime.datetime], as produced by [dateutil.parser.parse]. *)
Record datetime := mk_datetime {
  dt_year : Z; dt_month : Z; dt_day : Z;
  dt_hour : Z; dt_minute : Z; dt_second : Z; dt_microsecond : Z
}.

(** The values that flow through a request: decoded JSON, plus the
    [datetime] objects that DATE conversion puts into a payload. *)
Inductive value : Type :=
| VNone
| VBool (b : bool)
| VInt (n : Z)
| VStr (s : string)
| VList (l : list value)
| VDict (d : gmap string value)
| VDate (t : datetime).

(** The exceptions the modelled code can raise. *)
Inductive exn : Type :=
| KeyError (k : string)
| IndexError
| TypeError
| ParserError
| UnknownUser
| InvalidRequestPayload
| MissingParameters (names : list string)
| ConversionError (v : value) (friendly : string).

(** A computation that returns or raises. *)
Definition result (A : Type) : Type := exn + A.

Definition ret {A} (a : A) : result A := inr a.
Definition raise {A} (e : exn) : result A := inl e.
Definition bind {A B} (m : result A) (k : A → result B) : result B :=
  match m with
  | inl e => inl e
  | inr a => k a
  end.

Declare Scope py_scope.
Delimit Scope py_scope with py.
Notation "'let*' x ':=' m 'in' k" := (bind m (fun x => k))
  (at level 10, x name, m at level 100, k at level 200) : py_scope.
Local Open Scope py_scope.

(** [try: body except Exception: handler]: every modelled exception is an
    [Exception], so the handler runs on any raise. *)
Definition try_except {A} (body : result A) (handler : exn → result A) : result A :=
  match body with
  | inl e => handler e
  | inr a => inr a
  end.

Definition is_none (v : value) : bool :=
  match v with VNone => true | _ => false end.

(** [obj[key]] with a string key. Only a dict supports it; a str, a list and
    the scalars raise [TypeError]. *)
Definition getitem (obj : value) (key : string) : result value :=
  match obj with
  | VDict d => match d !! key with
               | Some v => ret v
               | None => raise (KeyError key)
               end
  | _ => raise TypeError
  end.

(** [obj[0]]. *)
Definition getitem0 (obj : value) : result value :=
  match obj with
  | VList (x :: _) => ret x
  | VList [] => raise IndexError
  | VStr (String c _) => ret (VStr (String c EmptyString))
  | VStr EmptyString => raise IndexError
  | VDict _ => raise (KeyError "0")
  | _ => raise TypeError
  end.

(** Substring test, for [key in some_str]. *)
Fixpoint is_infix (p s : string) : bool :=
  if String.prefix p s then true
  else match s with
       | EmptyString => false
       | String _ s' => is_infix p s'
       end.

Definition is_str (key : string) (v : value) : bool :=
  match v with VStr s => bool_decide (s = key) | _ => false end.

(** [key in obj] with a string key. *)
Definition contains (key : string) (obj : value) : result bool :=
  match obj with
  | VDict d => ret (bool_decide (is_Some (d !! key)))
  | VList l => ret (existsb (is_str key) l)
  | VStr s => ret (is_infix key s)
  | _ => raise TypeError
  end.

(** [d.get(key)] on a dict. *)
Definition dict_get (d : gmap string value) (key : string) : value :=
  default VNone (d !! key).

(** ** Request schema: ParamType, Parameter, Schema *)

Inductive ParamType : Type := STRING | JSON | DATE | USER.

(** The source class is named [Parameter], a reserved word here. *)
Record Param := mk_Param {
  name : string;
  type : ParamType;
  required : bool
}.

(** [Parameter.invalid], as the spec words it: true iff the parameter is
    required and its name is absent from the payload or bound to null. *)
Definition invalid_spec (p : Param) (json : gmap string value) : bool :=
  required p &&
  match json !! name p with
  | None => true
  | Some v => is_none v
  end.

(** Modelled from the spec: [Parameter.invalid] is defined in
    query_apis/__init__.py, which is not among the sources. For a required
    parameter this is the spec's definition. For an optional parameter the
    spec's words and the unit tests under src/ disagree, and the tests are
    followed: [TestParameter.test_invalid_optional] expects [True] for a name
    bound to null and [False] for an absent name. The two test tables cover
    all six combinations of required/optional with absent, null and non-null,
    so they determine the function. *)
Definition invalid (p : Param) (json : gmap string value) : bool :=
  match json !! name p with
  | Some v => is_none v
  | None => required p
  end.

(** The parametrized cases of [TestParameter.test_invalid_required] and
    [TestParameter.test_invalid_optional]: payload and expected result. *)
Definition test_invalid_required_cases : list (gmap string value * bool) :=
  [ ({[ "data" := VStr "yes" ]}, false);
    ({[ "data" := VNone ]}, true);
    ({[ "foo" := VStr "yes" ]}, true);
    (<[ "foo" := VNone ]> {[ "data" := VStr "yes" ]}, false) ].

Definition test_invalid_optional_cases : list (gmap string value * bool) :=
  [ ({[ "data" := VStr "yes" ]}, false);
    ({[ "data" := VNone ]}, true);
    ({[ "foo" := VStr "yes" ]}, false);
    ({[ "foo" := VNone ]}, false) ].

Definition passes (f : Param → gmap string value → bool) (p : Param)
    (cases : list (gmap string value * bool)) : bool :=
  forallb (λ c, Bool.eqb (f p (fst c)) (snd c)) cases.

Record Schema := mk_Schema { parameters : list Param }.

Section Validation.

(** [dateutil.parser.parse] on a string: the parsed datetime, or [None]
    where it raises [ParserError]. *)
Variable parser_parse : string → option datetime.

(** [Auth.validate_user], the identity collaborator: the canonical user
    name, or [None] where it rejects the user. *)
Variable validate_user : value → option string.

(** [dateutil.parser.parse(v)]: a value that is not a string raises
    [TypeError]. *)
Definition parse (v : value) : result datetime :=
  match v with
  | VStr s => match parser_parse s with
              | Some t => ret t
              | None => raise ParserError
              end
  | _ => raise TypeError
  end.

(** [str(t)] for a type, as used in error text; [TestParamType.test_enum]
    pins it to the upper-cased friendly name. *)
Definition friendly (t : ParamType) : string :=
  match t with
  | STRING => "STRING" | JSON => "JSON" | DATE => "DATE" | USER => "USER"
  end.

(** Modelled from the spec: [ParamType.convert], from
    query_apis/__init__.py. STRING and JSON are structural checks with
    identity conversion, DATE parses, USER delegates to the identity
    collaborator; every failure is a [ConversionError]. *)
Definition convert (t : ParamType) (v : value) : result value :=
  match t with
  | STRING => match v with
              | VStr _ => ret v
              | _ => raise (ConversionError v (friendly STRING))
              end
  | JSON => match v with
            | VDict _ | VList _ => ret v
            | _ => raise (ConversionError v (friendly JSON))
            end
  | DATE => try_except (let* t := parse v in ret (VDate t))
                       (λ _, raise (ConversionError v (friendly DATE)))
  | USER => match validate_user v with
            | Some u => ret (VStr u)
            | None => raise (ConversionError v (friendly USER))
            end
  end.

(** Step 3 of validation for one parameter: a name bound to a non-null
    value is rebound to the converted value. *)
Definition convert_field (json : gmap string value) (p : Param)
    : result (gmap string value) :=
  match json !! name p with
  | Some v =>
      if is_none v then ret json
      else let* c := convert (type p) v in ret (<[name p := c]> json)
  | None => ret json
  end.

Fixpoint convert_all (ps : list Param) (json : gmap string value)
    : result (gmap string value) :=
  match ps with
  | [] => ret json
  | p :: ps' => let* json' := convert_field json p in convert_all ps' json'
  end.

(** The names reported by the required check, in schema order. *)
Definition missing (s : Schema) (json : gmap string value) : list string :=
  map name (List.filter (λ p, required p && invalid p json) (parameters s)).

(** Modelled from the spec: [Schema.validate], from
    query_apis/__init__.py. Shape check, then the batched required check,
    then fail-fast conversion of the present non-null fields. *)
Definition validate (s : Schema) (payload : value)
    : result (gmap string value) :=
  match payload with
  | VDict json =>
      match missing s json with
      | [] => convert_all (parameters s) json
      | names => raise (MissingParameters names)
      end
  | _ => raise InvalidRequestPayload
  end.

End Validation.

(** [jsonify(datasets)] wraps the list in an HTTP response whose body is
    its JSON text; the model keeps the list that is serialised. *)
Definition jsonify (datasets : list (gmap string value)) : list (gmap string value) :=
  datasets.

(** [len(obj)]. *)
Definition len (obj : value) : result nat :=
  match obj with
  | VList l => ret (length l)
  | VDict d => ret (size d)
  | VStr s => ret (String.length s)
  | _ => raise TypeError
  end.

Fixpoint chars (s : string) : list value :=
  match s with
  | EmptyString => []
  | String c s' => VStr (String c EmptyString) :: chars s'
  end.

(** The items a [for] loop draws from [obj]: the elements of a list, the
    keys of a dict, the characters of a str. The keys come in the map's
    order rather than in insertion order; every key is a str, on which the
    loop body raises whatever the order. *)
Definition iterate (obj : value) : result (list value) :=
  match obj with
  | VList l => ret l
  | VDict d => ret (VStr <$> (map_to_list d).*1)
  | VStr s => ret (chars s)
  | _ => raise TypeError
  end.

(** Run [f] on each item in order, stopping at the first raise. *)
Fixpoint for_each {A B} (f : A → result B) (items : list A) : result (list B) :=
  match items with
  | [] => ret []
  | x :: items' =>
      let* y := f x in
      let* ys := for_each f items' in
      ret (y :: ys)
  end.

(** Follow a path of keys down nested dicts. *)
Fixpoint lookup_path (path : list string) (v : value) : option value :=
  match path with
  | [] => Some v
  | k :: path' =>
      match v with
      | VDict d => d !! k ≫= lookup_path path'
      | _ => None
      end
  end.

(** ** datasets_list.py *)

Module DatasetsList.

(** [DatasetsList.__init__]: the schema handed to [ElasticBase]. *)
Definition schema : Schema :=
  mk_Schema
    [ mk_Param "user" USER true;
      mk_Param "controller" STRING true;
      mk_Param "start" DATE true;
      mk_Param "end" DATE true ].

(** The [_source.includes] list of the query. *)
Definition includes : list value :=
  [ VStr "@metadata.controller_dir";
    VStr "@metadata.satellite";
    VStr "run.controller";
    VStr "run.start";
    VStr "run.end";
    VStr "run.name";
    VStr "run.config";
    VStr "run.prefix";
    VStr "run.id" ].

Section Resource.

Variable parser_parse : string → option datetime.

(** [datetime.utcfromtimestamp] applied to a POSIX timestamp. *)
Variable utc_of_timestamp : Z → datetime.

(** [ElasticBase._gen_month_range(prefix, start, end)] and
    [ElasticBase._get_user_term(user)], inherited helpers that are not
    among the sources. *)
Variable gen_month_range : string → value → value → result string.
Variable get_user_term : value → result value.

(** [DatasetsList.assemble]. The [logger.info] call has no effect on
    the result and is left out. *)
Definition assemble (json_data : gmap string value) : result value :=
  let* user := getitem (VDict json_data) "user" in
  let* controller := getitem (VDict json_data) "controller" in
  let* start := getitem (VDict json_data) "start" in
  let* end_ := getitem (VDict json_data) "end" in
  let* uri_fragment := gen_month_range ".v6.run-data." start end_ in
  let* user_term := get_user_term user in
  ret (VDict
    (<[ "path" := VStr ("/" ++ uri_fragment ++ "/_search") ]>
    {[ "kwargs" := VDict
      {[ "json" := VDict
        (<[ "_source" := VDict {[ "includes" := VList includes ]} ]>
        (<[ "sort" := VDict {[ "run.end" := VDict {[ "order" := VStr "desc" ]} ]} ]>
        (<[ "query" := VDict {[ "bool" := VDict {[ "filter" := VList
              [ VDict {[ "term" := user_term ]};
                VDict {[ "term" := VDict {[ "run.controller" := controller ]} ]} ] ]} ]} ]>
        {[ "size" := VInt 5000 ]}))) ]} ]})).

(** [datetime.utcfromtimestamp] is a class method of one positional
    argument, the timestamp. Called through an instance, the instance
    only selects the class; the argument list is what the call site
    passes. *)
Definition utcfromtimestamp (self : datetime) (args : list value) : result value :=
  match args with
  | [VInt ts] => ret (VDate (utc_of_timestamp ts))
  | _ => raise TypeError
  end.

(** Lines 139-148: the [try] computing the start timestamp, and its
    [except Exception] handler reading the hit's sort key. *)
Definition start_timestamp (dataset run_start : value) : result value :=
  try_except
    (let* t := parse parser_parse run_start in utcfromtimestamp t [])
    (λ _, let* sort := getitem dataset "sort" in getitem0 sort).

(** [if key in obj: d[out] = obj[key]]. *)
Definition copy_if_present (key out : string) (obj : value)
    (d : gmap string value) : result (gmap string value) :=
  let* present := contains key obj in
  if present then let* v := getitem obj key in ret (<[out := v]> d)
  else ret d.

(** The body of the loop in [DatasetsList.postprocess]: the record
    built for one hit. *)
Definition postprocess_hit (dataset : value) : result (gmap string value) :=
  let* src := getitem dataset "_source" in
  let* run := getitem src "run" in
  let* key := getitem run "name" in
  let* run_name := getitem run "name" in
  let* run_controller := getitem run "controller" in
  let* run_start := getitem run "start" in
  let* run_end := getitem run "end" in
  let* id := getitem run "id" in
  let d : gmap string value :=
    <[ "key" := key ]>
    (<[ "run.name" := run_name ]>
    (<[ "run.controller" := run_controller ]>
    (<[ "run.start" := run_start ]>
    (<[ "run.end" := run_end ]>
    {[ "id" := id ]})))) in
  let* timestamp := start_timestamp dataset run_start in
  let d := <[ "startUnixTimestamp" := timestamp ]> d in
  let* d := copy_if_present "config" "run.config" run d in
  let* d := copy_if_present "prefix" "run.prefix" run d in
  let* has_meta := contains "@metadata" src in
  if has_meta then
    let* meta := getitem src "@metadata" in
    let* d := copy_if_present "controller_dir" "@metadata.controller_dir" meta d in
    copy_if_present "satellite" "@metadata.satellite" meta d
  else ret d.

(** [DatasetsList.postprocess]. [len(hits)] is evaluated for the log
    line before the loop. *)
Definition postprocess (es_json : value) : result (list (gmap string value)) :=
  let* outer := getitem es_json "hits" in
  let* hits := getitem outer "hits" in
  let* _n := len hits in
  let* items := iterate hits in
  let* datasets := for_each postprocess_hit items in
  ret (jsonify datasets).

End Resource.

End DatasetsList.

(** ** elasticsearch_api.py *)

Module Elasticsearch.

(** [Elasticsearch.__init__]: the schema handed to [ElasticBase]. *)
Definition schema : Schema :=
  mk_Schema
    [ mk_Param "indices" STRING true;
      mk_Param "payload" JSON false;
      mk_Param "params" JSON false ].

(** [Elasticsearch.assemble]. *)
Definition assemble (json_data : gmap string value) : result value :=
  let* path := getitem (VDict json_data) "indices" in
  ret (VDict
    (<[ "path" := path ]>
    {[ "kwargs" := VDict
      (<[ "json" := dict_get json_data "payload" ]>
      {[ "params" := dict_get json_data "params" ]}) ]})).

(** [Elasticsearch.postprocess]. *)
Definition postprocess (es_json : value) : value := es_json.

End Elasticsearch.

(** ** Vocabulary for the statements *)

(** The schema of [TestSchema] and what its unit tests expect. *)
Definition test_schema : Schema :=
  mk_Schema
    [ mk_Param "key1" STRING true;
      mk_Param "key2" JSON false;
      mk_Param "key3" DATE false ].

(** [d] extended at [out] when the optional source field is there. *)
Definition add_opt (out : string) (o : option value) (d : gmap string value)
    : gmap string value :=
  match o with
  | Some v => <[out := v]> d
  | None => d
  end.

(** The record built before the optional fields are added. *)
Definition base_record (run_name run_controller run_start run_end id timestamp : value)
    : gmap string value :=
  <[ "startUnixTimestamp" := timestamp ]>
  (<[ "key" := run_name ]>
  (<[ "run.name" := run_name ]>
  (<[ "run.controller" := run_controller ]>
  (<[ "run.start" := run_start ]>
  (<[ "run.end" := run_end ]>
  {[ "id" := id ]}))))).

Definition is_dict (v : value) : bool :=
  match v with VDict _ => true | _ => false end.

Definition has_keys (keys : list string) (v : value) : bool :=
  match v with
  | VDict d => forallb (λ k, bool_decide (is_Some (d !! k))) keys
  | _ => false
  end.

(** The first entry of a hit's sort list. *)
Definition sort_key (dataset : value) : option value :=
  match lookup_path ["sort"] dataset with
  | Some (VList (k :: _)) => Some k
  | _ => None
  end.

(** A hit as the backend answers the query of [assemble]: a source record
    whose run has the five mandatory fields, a non-empty sort list, and
    metadata that, when there, is an object. *)
Definition well_formed_hit (dataset : value) : bool :=
  match lookup_path ["_source"; "run"] dataset with
  | Some run => has_keys ["name"; "controller"; "start"; "end"; "id"] run
  | None => false
  end
  && bool_decide (is_Some (sort_key dataset))
  && match lookup_path ["_source"; "@metadata"] dataset with
     | Some meta => is_dict meta
     | None => true
     end.

(** The response object that carries the given hits. *)
Definition response (hits : list value) : value :=
  VDict {[ "hits" := VDict {[ "hits" := VList hits ]} ]}.

(** ** Stand-ins for the collaborators, for concrete runs *)

(** A date parser that knows a few literals and rejects the rest. *)
Definition toy_parse (s : string) : option datetime :=
  if bool_decide (s = "2021-06-29") then Some (mk_datetime 2021 6 29 0 0 0 0)
  else if bool_decide (s = "2020-01-01") then Some (mk_datetime 2020 1 1 0 0 0 0)
  else if bool_decide (s = "2020-01-31") then Some (mk_datetime 2020 1 31 0 0 0 0)
  else if bool_decide (s = "2020-04-29T12:49:13.560620")
       then Some (mk_datetime 2020 4 29 12 49 13 560620)
  else None.

(** An identity collaborator that accepts every name, as the [ok] stub of
    [TestParamType.test_successful_conversions] does. *)
Definition ok (user : value) : option string :=
  match user with VStr u => Some u | _ => None end.

(** Timestamps are not decoded in concrete runs. *)
Definition toy_utc (ts : Z) : datetime := mk_datetime 1970 1 1 0 0 0 ts.

Definition toy_month_range (prefix : string) (start end_ : value) : result string :=
  ret ("pbench" ++ prefix ++ "2020-01").

Definition toy_user_term (user : value) : result value :=
  ret (VDict {[ "authorization.owner" := user ]}).

(** A hit whose run.start parses, with a sort key (the query sorts by
    run.end), metadata, a prefix and no config. *)
Definition sample_run : gmap string value :=
  <[ "name" := VStr "fio_run4_2020.04.29T12.49.13" ]>
  (<[ "controller" := VStr "dhcp31-187.example.com" ]>
  (<[ "start" := VStr "2020-04-29T12:49:13.560620" ]>
  (<[ "end" := VStr "2020-04-29T13:30:04.918704" ]>
  (<[ "prefix" := VStr "nightly" ]>
  {[ "id" := VStr "58bed61de1cd6de9a4b7ac2e3d1ae31a" ]})))).

Definition sample_hit : value :=
  VDict
    (<[ "sort" := VList [VInt 1588167004918] ]>
    {[ "_source" := VDict
        (<[ "run" := VDict sample_run ]>
        {[ "@metadata" := VDict {[ "controller_dir" := VStr "dhcp31-187.example.com" ]} ]}) ]}).

Definition sample_record : gmap string value :=
  <[ "@metadata.controller_dir" := VStr "dhcp31-187.example.com" ]>
  (<[ "run.prefix" := VStr "nightly" ]>
  (base_record (VStr "fio_run4_2020.04.29T12.49.13")
               (VStr "dhcp31-187.example.com")
               (VStr "2020-04-29T12:49:13.560620")
               (VStr "2020-04-29T13:30:04.918704")
               (VStr "58bed61de1cd6de9a4b7ac2e3d1ae31a")
               (VInt 1588167004918))).

(** The same run with a start time that does not parse. *)
Definition unparseable_run : gmap string value :=
  <[ "start" := VStr "yesterday" ]> sample_run.

Definition unparseable_hit : value :=
  VDict
    (<[ "sort" := VList [VInt 1588167004918] ]>
    {[ "_source" := VDict {[ "run" := VDict unparseable_run ]} ]}).

(** ... and without a sort key. *)
Definition unsorted_hit : value :=
  VDict {[ "_source" := VDict {[ "run" := VDict unparseable_run ]} ]}.

(** A list-datasets payload that names a user. *)
Definition sample_payload : gmap string value :=
  <[ "user" := VStr "drb" ]>
  (<[ "controller" := VStr "host1" ]>
  (<[ "start" := VStr "2020-01-01" ]>
  {[ "end" := VStr "2020-01-31" ]})).

Definition sample_validated : gmap string value :=
  <[ "start" := VDate (mk_datetime 2020 1 1 0 0 0 0) ]>
  (<[ "end" := VDate (mk_datetime 2020 1 31 0 0 0 0) ]> sample_payload).

(** ** More concrete inputs *)

(** The parts of [sample_hit]. *)
Definition sample_src : gmap string value :=
  <[ "run" := VDict sample_run ]>
  {[ "@metadata" := VDict {[ "controller_dir" := VStr "dhcp31-187.example.com" ]} ]}.

Definition sample_top : gmap string value :=
  <[ "sort" := VList [VInt 1588167004918] ]> {[ "_source" := VDict sample_src ]}.

(** A run cut short after its start time. *)
Definition short_run : gmap string value :=
  <[ "name" := VStr "fio_run4_2020.04.29T12.49.13" ]>
  (<[ "controller" := VStr "dhcp31-187.example.com" ]>
  {[ "start" := VStr "2020-04-29T12:49:13.560620" ]}).

Definition short_hit : value :=
  VDict
    (<[ "sort" := VList [VInt 1588167004918] ]>
    {[ "_source" := VDict {[ "run" := VDict short_run ]} ]}).

(** A complete hit whose metadata is null. *)
Definition null_metadata_hit : value :=
  VDict
    (<[ "sort" := VList [VInt 1588167004918] ]>
    {[ "_source" := VDict
        (<[ "run" := VDict sample_run ]> {[ "@metadata" := VNone ]}) ]}).

(** A response whose inner hits value is null. *)
Definition null_hits_response : value :=
  VDict {[ "hits" := VDict {[ "hits" := VNone ]} ]}.

(** An index naming helper that rejects every range. *)
Definition failing_month_range (prefix : string) (start end_ : value) : result string :=
  raise TypeError.

(** ** Vocabulary for the record and descriptor lemmas *)

(** The keys every record has, and the keys it may have. *)
Definition mandatory_keys : list string :=
  [ "key"; "run.name"; "run.controller"; "run.start"; "run.end"; "id";
    "startUnixTimestamp" ].

Definition optional_keys : list string :=
  [ "run.config"; "run.prefix"; "@metadata.controller_dir"; "@metadata.satellite" ].

(** The run fields the loop body reads unconditionally, in reading order,
    and the keys [DatasetsList.assemble] reads, in reading order. *)
Definition run_fields : list string :=
  [ "name"; "controller"; "start"; "end"; "id" ].

Definition assemble_keys : list string :=
  [ "user"; "controller"; "start"; "end" ].

(** The first key of [keys] that [m] does not bind. *)
Definition first_missing (keys : list string) (m : gmap string value) : option string :=
  List.find (λ k, negb (bool_decide (is_Some (m !! k)))) keys.

(** Values that support neither [in] nor subscripting. *)
Definition is_scalar (v : value) : bool :=
  match v with
  | VNone | VBool _ | VInt _ | VDate _ => true
  | VStr _ | VList _ | VDict _ => false
  end.

Definition is_list (v : value) : bool :=
  match v with VList _ => true | _ => false end.

(** [len(v) == 0], where [len] is defined. *)
Definition is_empty (v : value) : bool :=
  match v with
  | VList [] | VStr EmptyString => true
  | VDict d => bool_decide (size d = 0)
  | _ => false
  end.

(** A hit rebuilt around a changed run. *)
Definition with_run (h src run : gmap string value) : value :=
  VDict (<[ "_source" := VDict (<[ "run" := VDict run ]> src) ]> h).

(** * Properties *)

(** ** Parameter.invalid *)

Lemma is_none_true (v : value) : is_none v = true ↔ v = VNone.
Proof. destruct v; simpl; split; congruence. Qed.

Lemma is_none_false (v : value) : is_none v = false ↔ v ≠ VNone.
Proof. destruct v; simpl; split; congruence. Qed.

(** The model agrees with both parametrized tests of [TestParameter]. *)
Lemma invalid_passes_tests :
  passes invalid (mk_Param "data" STRING true) test_invalid_required_cases = true ∧
  passes invalid (mk_Param "data" STRING false) test_invalid_optional_cases = true.
Proof. split; reflexivity. Qed.

(** The spec's wording fails the second case of [test_invalid_optional]. *)
Lemma invalid_spec_fails_optional_test :
  passes invalid_spec (mk_Param "data" STRING false) test_invalid_optional_cases = false.
Proof. reflexivity. Qed.

(** On a required parameter the model and the spec's wording coincide. *)
Lemma invalid_required_spec (p : Param) (json : gmap string value) :
  required p = true → invalid p json = invalid_spec p json.
Proof.
  intros Hreq. unfold invalid, invalid_spec. rewrite Hreq.
  destruct (json !! name p); reflexivity.
Qed.

Lemma invalid_required (p : Param) (json : gmap string value) :
  required p = true →
  invalid p json = true ↔ json !! name p = None ∨ json !! name p = Some VNone.
Proof.
  intros Hreq. unfold invalid. destruct (json !! name p) as [v|] eqn:E.
  - rewrite is_none_true. split.
    + intros ->. by right.
    + intros [?|?]; congruence.
  - rewrite Hreq. split; [by left | done].
Qed.

(** C5, as stated: invalid holds exactly for a required parameter that is
    absent or null. An optional parameter bound to null refutes it. *)
Lemma invalid_iff_required_counterexample :
  ¬ (∀ (p : Param) (json : gmap string value),
       invalid p json = true ↔
       required p = true ∧
       (json !! name p = None ∨ json !! name p = Some VNone)).
Proof.
  intros H.
  destruct (H (mk_Param "data" STRING false) {[ "data" := VNone ]}) as [H1 _].
  destruct (H1 eq_refl) as [Hreq _]. discriminate Hreq.
Qed.

(** C5, amended: invalid holds exactly when the name is bound to null, or
    the parameter is required and the name is absent. In particular an
    optional parameter is invalid exactly when its name is bound to null. *)
Theorem invalid_iff (p : Param) (json : gmap string value) :
  (invalid p json = true ↔
     json !! name p = Some VNone ∨
     (required p = true ∧ json !! name p = None)) ∧
  (required p = false →
     (invalid p json = true ↔ json !! name p = Some VNone)).
Proof.
  unfold invalid. destruct (json !! name p) as [v|] eqn:E.
  - rewrite is_none_true. split; [|intros _].
    + split; [intros ->; by left | intros [?|[_ ?]]; congruence].
    + split; congruence.
  - split; [|intros ->].
    + split; [intros ->; by right | intros [?|[? _]]; congruence].
    + split; congruence.
Qed.

(** ** Schema.validate *)

Section ValidateFacts.

Variable parser_parse : string → option datetime.
Variable validate_user : value → option string.

Abbreviation convert := (convert parser_parse validate_user).
Abbreviation convert_field := (convert_field parser_parse validate_user).
Abbreviation convert_all := (convert_all parser_parse validate_user).
Abbreviation validate := (validate parser_parse validate_user).

(** A canonical value is never null. *)
Lemma convert_not_none (t : ParamType) (v c : value) :
  convert t v = inr c → c ≠ VNone.
Proof.
  destruct t; simpl.
  - destruct v; intros [= <-]; discriminate.
  - destruct v; intros [= <-]; discriminate.
  - unfold parse. destruct v; simpl; try discriminate.
    destruct (parser_parse s); simpl; intros [= <-]; discriminate.
  - destruct (validate_user v); intros [= <-]; discriminate.
Qed.

(** The canonical form of a DATE is a datetime, not a string. *)
Lemma convert_date (v c : value) :
  convert DATE v = inr c → ∃ s t, v = VStr s ∧ parser_parse s = Some t ∧ c = VDate t.
Proof.
  simpl. unfold parse. destruct v; simpl; try discriminate.
  destruct (parser_parse s) as [t|] eqn:E; simpl; [|discriminate].
  intros [= <-]. eauto.
Qed.

(** STRING and JSON conversions return their argument. *)
Lemma convert_identity (t : ParamType) (v c : value) :
  t = STRING ∨ t = JSON → convert t v = inr c → c = v.
Proof.
  intros [-> | ->]; simpl; destruct v; intros [= <-]; reflexivity.
Qed.

(** What one conversion step does to each key. *)
Lemma convert_field_lookup (json json' : gmap string value) (p : Param) (k : string) :
  convert_field json p = inr json' →
  (k ≠ name p → json' !! k = json !! k) ∧
  (json !! name p = None → json' = json) ∧
  (json !! name p = Some VNone → json' = json) ∧
  (∀ v, json !! name p = Some v → v ≠ VNone →
        ∃ c, convert (type p) v = inr c ∧ json' = <[name p := c]> json).
Proof.
  unfold convert_field. destruct (json !! name p) as [v|] eqn:E.
  - destruct (is_none v) eqn:En.
    + apply is_none_true in En as ->. intros [= <-].
      repeat split; try done. intros v [= <-] Hv. by destruct Hv.
    + destruct (convert (type p) v) as [e|c] eqn:Ec; simpl; [discriminate|].
      intros [= <-]. repeat split.
      * intros Hk. by rewrite lookup_insert_ne.
      * discriminate.
      * intros [= ->]. discriminate En.
      * intros v' [= <-] _. eauto.
  - intros [= <-]. repeat split; try done.
Qed.

(** A step keeps absent keys absent and non-null keys non-null. *)
Lemma convert_field_presence (json json' : gmap string value) (p : Param) (k : string) :
  convert_field json p = inr json' →
  (json !! k = None → json' !! k = None) ∧
  ((∃ v, json !! k = Some v ∧ v ≠ VNone) → ∃ v, json' !! k = Some v ∧ v ≠ VNone).
Proof.
  intros H. destruct (decide (k = name p)) as [->|Hk].
  - destruct (convert_field_lookup _ _ _ (name p) H) as (_ & Habs & _ & Hconv).
    split.
    + intros E. by rewrite (Habs E).
    + intros (v & E & Hv). destruct (Hconv v E Hv) as (c & Hc & ->).
      exists c. rewrite lookup_insert_eq. split; [done|].
      by eapply convert_not_none.
  - destruct (convert_field_lookup _ _ _ k H) as (Hne & _). rewrite (Hne Hk). tauto.
Qed.

Lemma convert_all_presence (ps : list Param) (json R : gmap string value) (k : string) :
  convert_all ps json = inr R →
  (json !! k = None → R !! k = None) ∧
  ((∃ v, json !! k = Some v ∧ v ≠ VNone) → ∃ v, R !! k = Some v ∧ v ≠ VNone).
Proof.
  revert json. induction ps as [|p ps IH]; intros json; simpl.
  - intros [= <-]. tauto.
  - destruct (convert_field json p) as [e|json1] eqn:E1; simpl; [discriminate|].
    intros H. destruct (convert_field_presence _ _ _ k E1) as [Ha Hb].
    destruct (IH _ H) as [Ha' Hb']. split; auto.
Qed.

(** Keys that no remaining parameter declares are not touched. *)
Lemma convert_all_other (ps : list Param) (json R : gmap string value) (k : string) :
  convert_all ps json = inr R →
  k ∉ name <$> ps → R !! k = json !! k.
Proof.
  revert json. induction ps as [|p ps IH]; intros json; simpl.
  - by intros [= <-].
  - destruct (convert_field json p) as [e|json1] eqn:E1; simpl; [discriminate|].
    intros H Hk. apply not_elem_of_cons in Hk as [Hk1 Hk2].
    rewrite (IH _ H Hk2).
    by destruct (convert_field_lookup _ _ _ k E1) as (Hne & _); apply Hne.
Qed.

(** With distinct names, each present non-null parameter ends up bound to
    the canonical form of its original value. *)
Lemma convert_all_converted (ps : list Param) (json R : gmap string value) :
  NoDup (name <$> ps) →
  convert_all ps json = inr R →
  ∀ p v, p ∈ ps → json !! name p = Some v → v ≠ VNone →
         ∃ c, convert (type p) v = inr c ∧ R !! name p = Some c.
Proof.
  revert json. induction ps as [|p0 ps IH]; intros json Hnd; simpl.
  - intros _ p v Hp. by apply elem_of_nil in Hp.
  - destruct (convert_field json p0) as [e|json1] eqn:E1; simpl; [discriminate|].
    rewrite fmap_cons in Hnd. apply NoDup_cons in Hnd as [Hfresh Hnd].
    intros H p v Hp E Hv. apply elem_of_cons in Hp as [->|Hp].
    + destruct (convert_field_lookup _ _ _ (name p0) E1) as (_ & _ & _ & Hconv).
      destruct (Hconv v E Hv) as (c & Hc & ->). exists c. split; [done|].
      rewrite (convert_all_other _ _ _ _ H Hfresh). apply lookup_insert_eq.
    + assert (name p ≠ name p0) as Hne.
      { intros Heq. apply Hfresh. rewrite <- Heq. by apply list_elem_of_fmap_2. }
      destruct (convert_field_lookup _ _ _ (name p) E1) as (Hsame & _).
      apply (IH json1 Hnd H p v Hp); [|done]. by rewrite (Hsame Hne).
Qed.

Lemma missing_nil (s : Schema) (json : gmap string value) :
  missing s json = [] →
  ∀ p, p ∈ parameters s → required p = true →
       ∃ v, json !! name p = Some v ∧ v ≠ VNone.
Proof.
  unfold missing. intros Hnil p Hp Hreq.
  apply fmap_nil_inv in Hnil.
  assert (required p && invalid p json = false) as Hf.
  { destruct (required p && invalid p json) eqn:E; [|done].
    assert (In p (List.filter (λ p, required p && invalid p json) (parameters s))) as Hin.
    { apply filter_In. split; [by apply list_elem_of_In | done]. }
    rewrite Hnil in Hin. destruct Hin. }
  rewrite Hreq in Hf. simpl in Hf. unfold invalid in Hf.
  destruct (json !! name p) as [v|]; [|congruence].
  exists v. split; [done|]. by apply is_none_false.
Qed.

Lemma elem_of_missing (s : Schema) (json : gmap string value) (n : string) :
  n ∈ missing s json ↔
  ∃ p, p ∈ parameters s ∧ name p = n ∧ required p = true ∧
       (json !! n = None ∨ json !! n = Some VNone).
Proof.
  unfold missing. rewrite list_elem_of_fmap. split.
  - intros (p & -> & Hp). apply list_elem_of_In, filter_In in Hp as [Hp Hb].
    apply andb_prop in Hb as [Hreq Hinv].
    exists p. repeat split; [by apply list_elem_of_In | done |].
    by apply invalid_required.
  - intros (p & Hp & <- & Hreq & Hbad). exists p. split; [done|].
    apply list_elem_of_In, filter_In. split; [by apply list_elem_of_In|].
    rewrite Hreq. simpl. by apply invalid_required.
Qed.

Lemma test_bad_payload : validate test_schema VNone = inl InvalidRequestPayload.
Proof. reflexivity. Qed.

Lemma test_missing_required :
  validate test_schema (VDict {[ "key2" := VStr "abc" ]})
  = inl (MissingParameters ["key1"]).
Proof. reflexivity. Qed.

Lemma test_missing_optional :
  validate test_schema (VDict {[ "key1" := VStr "OK" ]})
  = inr {[ "key1" := VStr "OK" ]}.
Proof. reflexivity. Qed.

Lemma test_bad_json :
  validate test_schema
    (VDict (<[ "key1" := VInt 1 ]> {[ "key2" := VStr "not JSON" ]}))
  = inl (ConversionError (VInt 1) "STRING").
Proof. reflexivity. Qed.

(** C1: when validation succeeds on a schema with distinct names, every
    required parameter is bound to a non-null value in the result, every
    parameter bound to a non-null value in the payload is bound to the
    canonical form of that value in the result, and a key absent from the
    payload is absent from the result. *)
Theorem validate_success (s : Schema) (payload : value) (R : gmap string value) :
  NoDup (name <$> parameters s) →
  validate s payload = inr R →
  ∃ P : gmap string value,
    payload = VDict P ∧
    (∀ p, p ∈ parameters s → required p = true →
          ∃ v, R !! name p = Some v ∧ v ≠ VNone) ∧
    (∀ p v, p ∈ parameters s → P !! name p = Some v → v ≠ VNone →
            ∃ c, convert (type p) v = inr c ∧ R !! name p = Some c) ∧
    (∀ k, P !! k = None → R !! k = None).
Proof.
  intros Hnd. unfold validate.
  destruct payload as [| | | | |P|]; try discriminate.
  destruct (missing s P) as [|n ns] eqn:Hm; [|discriminate].
  intros Hall. exists P. split; [reflexivity|]. split; [|split].
  - intros p Hp Hreq.
    eapply convert_all_presence; [exact Hall|].
    by eapply missing_nil.
  - intros p v Hp E Hv. by eapply convert_all_converted.
  - intros k E. by eapply convert_all_presence.
Qed.

(** C4: when at least one required parameter (so also when two or more)
    is absent or null, validation raises MissingParameters, and the names
    it carries are exactly those of the required parameters that are absent
    or null. *)
Theorem validate_missing (s : Schema) (json : gmap string value) (p0 : Param) :
  p0 ∈ parameters s →
  required p0 = true →
  json !! name p0 = None ∨ json !! name p0 = Some VNone →
  ∃ names : list string,
    validate s (VDict json) = inl (MissingParameters names) ∧
    ∀ n, n ∈ names ↔
         ∃ p, p ∈ parameters s ∧ name p = n ∧ required p = true ∧
              (json !! n = None ∨ json !! n = Some VNone).
Proof.
  intros Hp Hreq Hbad. exists (missing s json). split.
  - assert (name p0 ∈ missing s json) as Hin.
    { apply elem_of_missing. by exists p0. }
    unfold validate. destruct (missing s json); [|reflexivity].
    by apply elem_of_nil in Hin.
  - intros n. apply elem_of_missing.
Qed.

(** C3: the list-datasets schema declares [user] required, so the payload
    with a null user is rejected by the required check. *)
Theorem datasets_list_null_user_rejected :
  validate DatasetsList.schema
    (VDict (<[ "user" := VNone ]>
           (<[ "controller" := VStr "host1" ]>
           (<[ "start" := VStr "2020-01-01" ]>
           {[ "end" := VStr "2020-01-31" ]}))))
  = inl (MissingParameters ["user"]).
Proof. reflexivity. Qed.

End ValidateFacts.

(** [TestSchema.test_all_clear], run on the model. *)
Lemma validate_success_witness :
  let payload : gmap string value :=
    <[ "key1" := VStr "name" ]>
    (<[ "key3" := VStr "2021-06-29" ]>
    {[ "key2" := VDict (<[ "json" := VBool true ]> {[ "key" := VStr "abc" ]}) ]}) in
  let R : gmap string value :=
    <[ "key3" := VDate (mk_datetime 2021 6 29 0 0 0 0) ]> payload in
  NoDup (name <$> parameters test_schema) ∧
  validate toy_parse ok test_schema (VDict payload) = inr R ∧
  ∃ P : gmap string value,
    VDict payload = VDict P ∧
    (∀ p, p ∈ parameters test_schema → required p = true →
          ∃ v, R !! name p = Some v ∧ v ≠ VNone) ∧
    (∀ p v, p ∈ parameters test_schema → P !! name p = Some v → v ≠ VNone →
            ∃ c, convert toy_parse ok (type p) v = inr c ∧ R !! name p = Some c) ∧
    (∀ k, P !! k = None → R !! k = None).
Proof.
  intros payload R.
  assert (NoDup (name <$> parameters test_schema)) as Hnd.
  { apply (bool_decide_unpack _). vm_compute. exact I. }
  assert (validate toy_parse ok test_schema (VDict payload) = inr R) as Hv.
  { vm_compute. reflexivity. }
  split; [exact Hnd|]. split; [exact Hv|].
  exact (validate_success toy_parse ok test_schema (VDict payload) R Hnd Hv).
Defined.

(** Required A and B, optional C, empty payload: both A and B are named. *)
Lemma validate_missing_witness :
  let s := mk_Schema [ mk_Param "A" STRING true; mk_Param "B" DATE true;
                       mk_Param "C" JSON false ] in
  validate toy_parse ok s (VDict ∅) = inl (MissingParameters ["A"; "B"]) ∧
  ∃ names : list string,
    validate toy_parse ok s (VDict ∅) = inl (MissingParameters names) ∧
    ∀ n, n ∈ names ↔
         ∃ p, p ∈ parameters s ∧ name p = n ∧ required p = true ∧
              ((∅ : gmap string value) !! n = None ∨
               (∅ : gmap string value) !! n = Some VNone).
Proof.
  intros s. split; [reflexivity|].
  apply (validate_missing toy_parse ok s ∅ (mk_Param "A" STRING true)).
  - apply list_elem_of_here.
  - reflexivity.
  - left. reflexivity.
Defined.

(** ** DatasetsList *)

Lemma lookup_add_opt_eq (out : string) (o : option value) (d : gmap string value) :
  d !! out = None → add_opt out o d !! out = o.
Proof. intros H. destruct o; simpl; [apply lookup_insert_eq | exact H]. Qed.

Lemma lookup_add_opt_ne (out k : string) (o : option value) (d : gmap string value) :
  out ≠ k → add_opt out o d !! k = d !! k.
Proof. intros H. destruct o; simpl; [by apply lookup_insert_ne | reflexivity]. Qed.

Lemma getitem_inv (obj v : value) (key : string) :
  getitem obj key = inr v → ∃ d, obj = VDict d ∧ d !! key = Some v.
Proof.
  destruct obj; simpl; try discriminate.
  destruct (d !! key) eqn:E; simpl; [|discriminate].
  intros [= <-]. eauto.
Qed.

Lemma getitem_dict (d : gmap string value) (key : string) (v : value) :
  d !! key = Some v → getitem (VDict d) key = inr v.
Proof. intros H. simpl. by rewrite H. Qed.

Section DatasetsListFacts.

Variable parser_parse : string → option datetime.
Variable utc_of_timestamp : Z → datetime.
Variable gen_month_range : string → value → value → result string.
Variable get_user_term : value → result value.

Abbreviation start_timestamp :=
  (DatasetsList.start_timestamp parser_parse utc_of_timestamp).
Abbreviation postprocess_hit :=
  (DatasetsList.postprocess_hit parser_parse utc_of_timestamp).
Abbreviation postprocess :=
  (DatasetsList.postprocess parser_parse utc_of_timestamp).
Abbreviation assemble :=
  (DatasetsList.assemble gen_month_range get_user_term).

(** The [try] body never returns: when parsing succeeds, the call of
    [utcfromtimestamp] without its argument raises. *)
Lemma try_body_raises (run_start : value) :
  ∃ e, (let* t := parse parser_parse run_start in
        DatasetsList.utcfromtimestamp utc_of_timestamp t []) = inl e.
Proof.
  destruct (parse parser_parse run_start) as [e|t]; simpl; eauto.
Qed.

(** Hence the handler always runs: the timestamp is the first sort key of
    the hit, or the exception raised while reading it. *)
Lemma start_timestamp_falls_back (dataset run_start : value) :
  start_timestamp dataset run_start
  = (let* sort := getitem dataset "sort" in getitem0 sort).
Proof.
  unfold DatasetsList.start_timestamp.
  destruct (try_body_raises run_start) as [e ->]. reflexivity.
Qed.

(** C2: also when [run.start] parses as a date/time, the value computed
    for startUnixTimestamp is the first sort key of the hit (or the
    exception raised while reading it), not a timestamp derived from
    [run.start]. *)
Theorem start_timestamp_when_parsed (dataset run_start : value) (t : datetime) :
  parse parser_parse run_start = inr t →
  start_timestamp dataset run_start
  = (let* sort := getitem dataset "sort" in getitem0 sort).
Proof. intros _. apply start_timestamp_falls_back. Qed.

(** A copy step from a dict adds the key exactly when the dict has it. *)
Lemma copy_if_present_dict (key out : string) (m d : gmap string value) :
  DatasetsList.copy_if_present key out (VDict m) d = inr (add_opt out (m !! key) d).
Proof.
  unfold DatasetsList.copy_if_present, contains, getitem.
  destruct (m !! key) as [v|]; reflexivity.
Qed.

(** A copy step that returns has added the field of [obj] when [obj] is a
    dict holding it, and nothing otherwise. *)
Lemma copy_if_present_inv (key out : string) (obj : value) (d d' : gmap string value) :
  DatasetsList.copy_if_present key out obj d = inr d' →
  d' = add_opt out (lookup_path [key] obj) d.
Proof.
  destruct obj; try discriminate.
  - unfold DatasetsList.copy_if_present. simpl.
    destruct (is_infix key s); simpl; [discriminate|]. by intros [= <-].
  - unfold DatasetsList.copy_if_present. simpl.
    destruct (existsb (is_str key) l); simpl; [discriminate|]. by intros [= <-].
  - rewrite copy_if_present_dict. intros [= <-]. simpl.
    by destruct (d0 !! key).
Qed.

(** The shape of every hit that is processed, and the record it yields. *)
Lemma postprocess_hit_inv (dataset : value) (d : gmap string value) :
  postprocess_hit dataset = inr d →
  ∃ (h src run : gmap string value) (nm ctl st en id ts : value),
    dataset = VDict h ∧ h !! "_source" = Some (VDict src) ∧
    src !! "run" = Some (VDict run) ∧
    run !! "name" = Some nm ∧ run !! "controller" = Some ctl ∧
    run !! "start" = Some st ∧ run !! "end" = Some en ∧ run !! "id" = Some id ∧
    start_timestamp dataset st = inr ts ∧
    d = add_opt "@metadata.satellite"
          (lookup_path ["@metadata"; "satellite"] (VDict src))
       (add_opt "@metadata.controller_dir"
          (lookup_path ["@metadata"; "controller_dir"] (VDict src))
       (add_opt "run.prefix" (run !! "prefix")
       (add_opt "run.config" (run !! "config")
          (base_record nm ctl st en id ts)))).
Proof.
  unfold DatasetsList.postprocess_hit.
  destruct (getitem dataset "_source") as [?|srcv] eqn:E1; cbn [bind]; [discriminate|].
  apply getitem_inv in E1 as (h & -> & Hsrc).
  destruct (getitem srcv "run") as [?|runv] eqn:E2; cbn [bind]; [discriminate|].
  apply getitem_inv in E2 as (src & -> & Hrun).
  destruct (getitem runv "name") as [?|nm] eqn:E3; cbn [bind]; [discriminate|].
  apply getitem_inv in E3 as (run & -> & Hnm).
  destruct (getitem (VDict run) "controller") as [?|ctl] eqn:E4; cbn [bind]; [discriminate|].
  destruct (getitem (VDict run) "start") as [?|st] eqn:E5; cbn [bind]; [discriminate|].
  destruct (getitem (VDict run) "end") as [?|en] eqn:E6; cbn [bind]; [discriminate|].
  destruct (getitem (VDict run) "id") as [?|id] eqn:E7; cbn [bind]; [discriminate|].
  apply getitem_inv in E4 as (? & [= <-] & Hctl).
  apply getitem_inv in E5 as (? & [= <-] & Hst).
  apply getitem_inv in E6 as (? & [= <-] & Hen).
  apply getitem_inv in E7 as (? & [= <-] & Hid).
  destruct (DatasetsList.start_timestamp _ _ (VDict h) st) as [?|ts] eqn:E8;
    cbn [bind]; [discriminate|].
  rewrite copy_if_present_dict. cbn [bind].
  rewrite copy_if_present_dict. cbn [bind contains ret].
  intros H. exists h, src, run, nm, ctl, st, en, id, ts.
  repeat (split; [done|]).
  destruct (src !! "@metadata") as [meta|] eqn:Em.
  - assert (getitem (VDict src) "@metadata" = inr meta) as Hg by by apply getitem_dict.
    rewrite Hg in H. cbn [bind ret] in H.
    destruct (DatasetsList.copy_if_present "controller_dir" _ meta _)
      as [?|d1] eqn:Ec in H; cbn [bind] in H; [discriminate|].
    apply copy_if_present_inv in Ec as ->.
    apply copy_if_present_inv in H as ->.
    cbn [lookup_path]. rewrite Em. cbn [mbind option_bind].
    destruct meta; reflexivity.
  - cbn [ret bind] in H. cbn [lookup_path]. rewrite Em.
    by injection H as <-.
Qed.

Lemma lookup_path_dict (k : string) (path : list string) (v r : value) :
  lookup_path (k :: path) v = Some r →
  ∃ d w, v = VDict d ∧ d !! k = Some w ∧ lookup_path path w = Some r.
Proof.
  destruct v; simpl; try discriminate.
  destruct (d !! k) as [w|] eqn:E; simpl; [|discriminate]. eauto.
Qed.

(** C7: in the record of a processed hit, each of run.config, run.prefix,
    @metadata.controller_dir and @metadata.satellite is bound exactly when
    the corresponding field is in the source hit, and to that field's
    value. *)
Theorem postprocess_hit_optional (dataset : value) (d : gmap string value) :
  postprocess_hit dataset = inr d →
  d !! "run.config" = lookup_path ["_source"; "run"; "config"] dataset ∧
  d !! "run.prefix" = lookup_path ["_source"; "run"; "prefix"] dataset ∧
  d !! "@metadata.controller_dir"
    = lookup_path ["_source"; "@metadata"; "controller_dir"] dataset ∧
  d !! "@metadata.satellite"
    = lookup_path ["_source"; "@metadata"; "satellite"] dataset.
Proof.
  intros H.
  apply postprocess_hit_inv in H
    as (h & src & run & nm & ctl & st & en & id & ts & -> & Hsrc & Hrun & _ & _ & _ & _ & _ & _ & ->).
  cbn [lookup_path]. rewrite Hsrc. cbn [mbind option_bind lookup_path].
  rewrite Hrun. cbn [mbind option_bind lookup_path].
  repeat split.
  - rewrite !lookup_add_opt_ne by done.
    rewrite lookup_add_opt_eq by reflexivity. by destruct (run !! "config").
  - rewrite !lookup_add_opt_ne by done.
    rewrite lookup_add_opt_eq by (by rewrite lookup_add_opt_ne).
    by destruct (run !! "prefix").
  - rewrite lookup_add_opt_ne by done.
    rewrite lookup_add_opt_eq by (by rewrite !lookup_add_opt_ne).
    reflexivity.
  - rewrite lookup_add_opt_eq by (by rewrite !lookup_add_opt_ne).
    reflexivity.
Qed.

(** A well-formed hit is processed, and its record carries the hit's first
    sort key as startUnixTimestamp. *)
Lemma postprocess_hit_well_formed (dataset : value) :
  well_formed_hit dataset = true →
  ∃ d, postprocess_hit dataset = inr d ∧
       d !! "startUnixTimestamp" = sort_key dataset.
Proof.
  unfold well_formed_hit. intros Hwf.
  apply andb_prop in Hwf as [Hwf Hmeta]. apply andb_prop in Hwf as [Hrun Hsort].
  destruct (lookup_path ["_source"; "run"] dataset) as [runv|] eqn:Er; [|discriminate].
  apply lookup_path_dict in Er as (h & srcv & -> & Hsrc & Er).
  apply lookup_path_dict in Er as (src & runv' & -> & Hr & [= ->]).
  destruct runv as [| | | | |run|]; try discriminate. simpl in Hrun.
  repeat (apply andb_prop in Hrun as [?%bool_decide_eq_true Hrun]).
  destruct (run !! "name") as [nm|] eqn:Hnm; [|by destruct H as [? ?]].
  destruct (run !! "controller") as [ctl|] eqn:Hctl; [|by destruct H0 as [? ?]].
  destruct (run !! "start") as [st|] eqn:Hst; [|by destruct H1 as [? ?]].
  destruct (run !! "end") as [en|] eqn:Hen; [|by destruct H2 as [? ?]].
  destruct (run !! "id") as [id|] eqn:Hid; [|by destruct H3 as [? ?]].
  apply bool_decide_eq_true in Hsort as [k Hk].
  assert (start_timestamp (VDict h) st = inr k) as Hts.
  { rewrite start_timestamp_falls_back. unfold sort_key in Hk.
    cbn [lookup_path] in Hk. cbn [getitem].
    destruct (h !! "sort") as [[| | | |[|k' ?]| |]|]; cbn in Hk; try discriminate.
    injection Hk as ->. reflexivity. }
  assert (∃ d, postprocess_hit (VDict h) = inr d) as [d Hd].
  { unfold DatasetsList.postprocess_hit.
    rewrite (getitem_dict _ _ _ Hsrc). cbn [bind].
    rewrite (getitem_dict _ _ _ Hr). cbn [bind].
    rewrite (getitem_dict _ _ _ Hnm), (getitem_dict _ _ _ Hctl),
      (getitem_dict _ _ _ Hst), (getitem_dict _ _ _ Hen), (getitem_dict _ _ _ Hid).
    cbn [bind]. rewrite Hts. cbn [bind].
    rewrite copy_if_present_dict. cbn [bind].
    rewrite copy_if_present_dict. cbn [bind contains ret].
    simpl in Hmeta. rewrite Hsrc in Hmeta. simpl in Hmeta.
    destruct (src !! "@metadata") as [meta|] eqn:Em.
    - destruct meta as [| | | | |m|]; try discriminate.
      rewrite (getitem_dict _ _ _ Em). cbn [bind].
      rewrite copy_if_present_dict. cbn [bind].
      rewrite copy_if_present_dict. eauto.
    - eauto. }
  exists d. split; [exact Hd|].
  apply postprocess_hit_inv in Hd
    as (h' & src' & run' & nm' & ctl' & st' & en' & id' & ts & [= <-] & Hsrc' & Hrun' & _ & _ & Hst' & _ & _ & Hts' & ->).
  rewrite Hsrc in Hsrc'. injection Hsrc' as <-.
  rewrite Hr in Hrun'. injection Hrun' as <-.
  rewrite Hst in Hst'. injection Hst' as <-.
  rewrite Hts in Hts'. injection Hts' as <-.
  rewrite !lookup_add_opt_ne by done. rewrite Hk. reflexivity.
Qed.

Lemma for_each_Forall {A B} (f : A → result B) (Q : A → B → Prop) (items : list A) :
  Forall (λ x, ∃ y, f x = inr y ∧ Q x y) items →
  ∃ ys, for_each f items = inr ys ∧ Forall2 Q items ys.
Proof.
  induction 1 as [|x items (y & Hy & HQ) _ (ys & Hys & HF)]; simpl.
  - exists []. split; [reflexivity | constructor].
  - rewrite Hy. cbn [bind]. rewrite Hys. cbn [bind ret].
    exists (y :: ys). split; [reflexivity | by constructor].
Qed.

(** C8, amended: when every hit of the response is well formed (mandatory
    run fields, a non-empty sort list, metadata an object when there),
    postprocess returns one record per hit, and each record whose run.start
    fails to parse has the hit's first sort key as startUnixTimestamp. *)
Theorem postprocess_degrades (es_json : value) (hits : list value) :
  lookup_path ["hits"; "hits"] es_json = Some (VList hits) →
  forallb well_formed_hit hits = true →
  ∃ records,
    postprocess es_json = inr records ∧
    Forall2 (λ hit r,
               ∀ st e, lookup_path ["_source"; "run"; "start"] hit = Some st →
                       parse parser_parse st = inl e →
                       r !! "startUnixTimestamp" = sort_key hit ∧
                       is_Some (sort_key hit))
            hits records.
Proof.
  intros Hhits Hwf.
  apply lookup_path_dict in Hhits as (outer & w & -> & Houter & Hhits).
  apply lookup_path_dict in Hhits as (inner & w' & -> & Hinner & [= ->]).
  destruct (for_each_Forall postprocess_hit
              (λ hit r, r !! "startUnixTimestamp" = sort_key hit ∧
                        is_Some (sort_key hit)) hits) as (records & Hrec & HF).
  { apply Forall_forall. intros hit Hin.
    assert (well_formed_hit hit = true) as Hhit.
    { rewrite forallb_forall in Hwf. apply Hwf. by apply list_elem_of_In. }
    destruct (postprocess_hit_well_formed hit Hhit) as (d & Hd & Hts).
    exists d. repeat split; try done.
    unfold well_formed_hit in Hhit.
    apply andb_prop in Hhit as [Hhit _]. apply andb_prop in Hhit as [_ Hs].
    by apply bool_decide_eq_true in Hs. }
  exists records. split.
  - unfold DatasetsList.postprocess.
    rewrite (getitem_dict _ _ _ Houter). cbn [bind].
    rewrite (getitem_dict _ _ _ Hinner). cbn [bind ret len iterate].
    rewrite Hrec. reflexivity.
  - eapply Forall2_impl; [exact HF|]. intros hit r [? ?] st e _ _. done.
Qed.

Variable validate_user : value → option string.

Lemma datasets_list_schema_NoDup : NoDup (name <$> parameters DatasetsList.schema).
Proof. apply (bool_decide_unpack _). vm_compute. exact I. Qed.

(** C6: for a payload validated by the list-datasets schema, once the two
    inherited helpers have returned the index selector and the ownership
    term, assemble returns a descriptor whose filter holds the ownership
    term and the term equating run.controller with the payload's
    controller, whose sort is run.end descending, whose size is 5000 and
    whose _source includes are the nine fields @metadata.controller_dir,
    @metadata.satellite, run.controller, run.start, run.end, run.name,
    run.config, run.prefix and run.id, in that order. *)
Theorem assemble_descriptor (payload : value) (P : gmap string value)
    (user start end_ term : value) (frag : string) :
  validate parser_parse validate_user DatasetsList.schema payload = inr P →
  P !! "user" = Some user →
  P !! "start" = Some start →
  P !! "end" = Some end_ →
  gen_month_range ".v6.run-data." start end_ = inr frag →
  get_user_term user = inr term →
  ∃ (controller D : value),
    lookup_path ["controller"] payload = Some controller ∧
    assemble P = inr D ∧
    lookup_path ["path"] D = Some (VStr ("/" ++ frag ++ "/_search")) ∧
    lookup_path ["kwargs"; "json"; "query"; "bool"; "filter"] D
      = Some (VList [ VDict {[ "term" := term ]};
                      VDict {[ "term" := VDict {[ "run.controller" := controller ]} ]} ]) ∧
    lookup_path ["kwargs"; "json"; "sort"] D
      = Some (VDict {[ "run.end" := VDict {[ "order" := VStr "desc" ]} ]}) ∧
    lookup_path ["kwargs"; "json"; "size"] D = Some (VInt 5000) ∧
    lookup_path ["kwargs"; "json"; "_source"; "includes"] D
      = Some (VList [ VStr "@metadata.controller_dir";
                      VStr "@metadata.satellite";
                      VStr "run.controller";
                      VStr "run.start";
                      VStr "run.end";
                      VStr "run.name";
                      VStr "run.config";
                      VStr "run.prefix";
                      VStr "run.id" ]).
Proof.
  intros Hval Huser Hstart Hend Hfrag Hterm.
  unfold validate in Hval. destruct payload as [| | | | |P0|]; try discriminate.
  destruct (missing DatasetsList.schema P0) eqn:Hm; [|discriminate].
  set (pc := mk_Param "controller" STRING true).
  assert (pc ∈ parameters DatasetsList.schema) as Hpc.
  { apply list_elem_of_further, list_elem_of_here. }
  destruct (missing_nil _ _ Hm pc Hpc eq_refl) as (v & Hv & Hnn).
  destruct (convert_all_converted _ _ _ _ _ datasets_list_schema_NoDup Hval pc v Hpc Hv Hnn)
    as (c & Hc & HPc).
  apply convert_identity in Hc as ->; [|by left].
  change (P0 !! "controller" = Some v) in Hv.
  change (P !! "controller" = Some v) in HPc.
  exists v. eexists. split; [|split].
  - cbn [lookup_path]. rewrite Hv. reflexivity.
  - unfold DatasetsList.assemble.
    rewrite (getitem_dict _ _ _ Huser), (getitem_dict _ _ _ HPc),
      (getitem_dict _ _ _ Hstart), (getitem_dict _ _ _ Hend).
    cbn [bind]. rewrite Hfrag. cbn [bind]. rewrite Hterm. cbn [bind ret].
    reflexivity.
  - repeat split; reflexivity.
Qed.

End DatasetsListFacts.

(** The docstring's run, whose start parses, still gets the sort key. *)
Lemma start_timestamp_when_parsed_witness :
  parse toy_parse (VStr "2020-04-29T12:49:13.560620")
    = inr (mk_datetime 2020 4 29 12 49 13 560620) ∧
  DatasetsList.start_timestamp toy_parse toy_utc sample_hit
    (VStr "2020-04-29T12:49:13.560620")
  = (let* sort := getitem sample_hit "sort" in getitem0 sort).
Proof.
  split; [reflexivity|].
  apply (start_timestamp_when_parsed toy_parse toy_utc sample_hit
           (VStr "2020-04-29T12:49:13.560620")
           (mk_datetime 2020 4 29 12 49 13 560620)).
  reflexivity.
Defined.

Lemma sample_hit_record :
  DatasetsList.postprocess_hit toy_parse toy_utc sample_hit = inr sample_record.
Proof. vm_compute. reflexivity. Qed.

(** A hit without config is processed, and its record has no run.config. *)
Lemma postprocess_hit_optional_witness :
  DatasetsList.postprocess_hit toy_parse toy_utc sample_hit = inr sample_record ∧
  sample_record !! "run.config" = None ∧
  sample_record !! "run.config"
    = lookup_path ["_source"; "run"; "config"] sample_hit ∧
  sample_record !! "run.prefix"
    = lookup_path ["_source"; "run"; "prefix"] sample_hit ∧
  sample_record !! "@metadata.controller_dir"
    = lookup_path ["_source"; "@metadata"; "controller_dir"] sample_hit ∧
  sample_record !! "@metadata.satellite"
    = lookup_path ["_source"; "@metadata"; "satellite"] sample_hit.
Proof.
  split; [exact sample_hit_record|]. split; [reflexivity|].
  apply (postprocess_hit_optional toy_parse toy_utc sample_hit sample_record).
  exact sample_hit_record.
Defined.

(** C8, as stated: a response whose only hit has an unparseable run.start
    and no sort key makes postprocess raise. *)
Lemma postprocess_raises_without_sort :
  parse toy_parse (VStr "yesterday") = inl ParserError ∧
  lookup_path ["_source"; "run"; "start"] unsorted_hit = Some (VStr "yesterday") ∧
  DatasetsList.postprocess toy_parse toy_utc (response [unsorted_hit])
    = inl (KeyError "sort").
Proof. repeat split; vm_compute; reflexivity. Qed.

Lemma postprocess_degrades_witness :
  lookup_path ["hits"; "hits"] (response [unparseable_hit])
    = Some (VList [unparseable_hit]) ∧
  forallb well_formed_hit [unparseable_hit] = true ∧
  ∃ records,
    DatasetsList.postprocess toy_parse toy_utc (response [unparseable_hit])
      = inr records ∧
    Forall2 (λ hit r,
               ∀ st e, lookup_path ["_source"; "run"; "start"] hit = Some st →
                       parse toy_parse st = inl e →
                       r !! "startUnixTimestamp" = sort_key hit ∧
                       is_Some (sort_key hit))
            [unparseable_hit] records.
Proof.
  split; [reflexivity|]. split; [reflexivity|].
  apply (postprocess_degrades toy_parse toy_utc
           (response [unparseable_hit]) [unparseable_hit]); reflexivity.
Defined.

Lemma assemble_descriptor_witness :
  validate toy_parse ok DatasetsList.schema (VDict sample_payload)
    = inr sample_validated ∧
  ∃ (controller D : value),
    lookup_path ["controller"] (VDict sample_payload) = Some controller ∧
    DatasetsList.assemble toy_month_range toy_user_term sample_validated = inr D ∧
    lookup_path ["path"] D
      = Some (VStr ("/" ++ "pbench.v6.run-data.2020-01" ++ "/_search")) ∧
    lookup_path ["kwargs"; "json"; "query"; "bool"; "filter"] D
      = Some (VList [ VDict {[ "term" := VDict {[ "authorization.owner" := VStr "drb" ]} ]};
                      VDict {[ "term" := VDict {[ "run.controller" := controller ]} ]} ]) ∧
    lookup_path ["kwargs"; "json"; "sort"] D
      = Some (VDict {[ "run.end" := VDict {[ "order" := VStr "desc" ]} ]}) ∧
    lookup_path ["kwargs"; "json"; "size"] D = Some (VInt 5000) ∧
    lookup_path ["kwargs"; "json"; "_source"; "includes"] D
      = Some (VList [ VStr "@metadata.controller_dir";
                      VStr "@metadata.satellite";
                      VStr "run.controller";
                      VStr "run.start";
                      VStr "run.end";
                      VStr "run.name";
                      VStr "run.config";
                      VStr "run.prefix";
                      VStr "run.id" ]).
Proof.
  split; [vm_compute; reflexivity|].
  apply (assemble_descriptor toy_parse toy_month_range toy_user_term ok
           (VDict sample_payload) sample_validated (VStr "drb")
           (VDate (mk_datetime 2020 1 1 0 0 0 0))
           (VDate (mk_datetime 2020 1 31 0 0 0 0))
           (VDict {[ "authorization.owner" := VStr "drb" ]})
           "pbench.v6.run-data.2020-01");
    vm_compute; reflexivity.
Defined.

(** ** Elasticsearch passthrough *)

Section ElasticsearchFacts.

Variable parser_parse : string → option datetime.
Variable validate_user : value → option string.

(** A schema of STRING and JSON parameters converts nothing. *)
Lemma convert_all_identity (ps : list Param) (json R : gmap string value) :
  Forall (λ p, type p = STRING ∨ type p = JSON) ps →
  convert_all parser_parse validate_user ps json = inr R → R = json.
Proof.
  intros Hty. revert json. induction Hty as [|p ps Hp _ IH]; intros json; simpl.
  - by intros [= <-].
  - destruct (convert_field parser_parse validate_user json p) as [e|json1] eqn:E1;
      simpl; [discriminate|].
    intros H. rewrite (IH _ H).
    destruct (convert_field_lookup _ _ _ _ _ (name p) E1) as (_ & Habs & Hnull & Hconv).
    destruct (json !! name p) as [v|] eqn:E; [|by apply Habs].
    destruct (is_none v) eqn:Hv;
      [apply is_none_true in Hv as ->; by apply Hnull | apply is_none_false in Hv].
    destruct (Hconv v eq_refl Hv) as (c & Hc & ->).
    apply (convert_identity _ _ _ _ _ Hp) in Hc as ->. by apply insert_id.
Qed.

Lemma elasticsearch_types :
  Forall (λ p, type p = STRING ∨ type p = JSON) (parameters Elasticsearch.schema).
Proof.
  unfold Elasticsearch.schema. simpl.
  repeat (apply Forall_cons; split); [by left | by right | by right | apply Forall_nil_2].
Qed.

(** C9: for a payload accepted by the passthrough schema, validation
    returns the payload as it is, and assemble returns exactly the dict with
    path bound to the payload's indices and kwargs bound to a dict in which
    json and params are both present, holding the payload's payload and
    params values, or null where the payload has none. *)
Theorem elasticsearch_assemble (payload : value) (P : gmap string value) :
  validate parser_parse validate_user Elasticsearch.schema payload = inr P →
  payload = VDict P ∧
  ∃ indices : string,
    P !! "indices" = Some (VStr indices) ∧
    Elasticsearch.assemble P
      = inr (VDict
          (<[ "path" := VStr indices ]>
          {[ "kwargs" := VDict
            (<[ "json" := default VNone (P !! "payload") ]>
            {[ "params" := default VNone (P !! "params") ]}) ]})).
Proof.
  unfold validate. destruct payload as [| | | | |P0|]; try discriminate.
  destruct (missing Elasticsearch.schema P0) eqn:Hm; [|discriminate].
  intros Hall.
  assert (P = P0) as -> by (eapply convert_all_identity; [apply elasticsearch_types | exact Hall]).
  split; [reflexivity|].
  set (pi := mk_Param "indices" STRING true).
  assert (pi ∈ parameters Elasticsearch.schema) as Hpi by apply list_elem_of_here.
  destruct (missing_nil _ _ Hm pi Hpi eq_refl) as (v & Hv & Hnn).
  change (P0 !! "indices" = Some v) in Hv.
  cbn [parameters Elasticsearch.schema convert_all] in Hall.
  unfold convert_field at 1 in Hall. cbn [name type] in Hall. rewrite Hv in Hall.
  destruct v as [| | |s| | |]; try (simpl in Hall; discriminate); [by destruct Hnn|].
  exists s. split; [exact Hv|].
  unfold Elasticsearch.assemble. rewrite (getitem_dict _ _ _ Hv). reflexivity.
Qed.

End ElasticsearchFacts.

Lemma elasticsearch_assemble_witness :
  let P : gmap string value :=
    <[ "indices" := VStr "/_cat/indices" ]> {[ "params" := VDict {[ "v" := VBool true ]} ]} in
  validate toy_parse ok Elasticsearch.schema (VDict P) = inr P ∧
  VDict P = VDict P ∧
  ∃ indices : string,
    P !! "indices" = Some (VStr indices) ∧
    Elasticsearch.assemble P
      = inr (VDict
          (<[ "path" := VStr indices ]>
          {[ "kwargs" := VDict
            (<[ "json" := default VNone (P !! "payload") ]>
            {[ "params" := default VNone (P !! "params") ]}) ]})).
Proof.
  intros P.
  assert (validate toy_parse ok Elasticsearch.schema (VDict P) = inr P) as Hv
    by (vm_compute; reflexivity).
  split; [exact Hv|].
  exact (elasticsearch_assemble toy_parse ok (VDict P) P Hv).
Defined.

(** With no payload and no params, both kwargs entries are null. *)
Lemma elasticsearch_assemble_absent :
  Elasticsearch.assemble {[ "indices" := VStr "run-data" ]}
  = inr (VDict
      (<[ "path" := VStr "run-data" ]>
      {[ "kwargs" := VDict (<[ "json" := VNone ]> {[ "params" := VNone ]}) ]})).
Proof. reflexivity. Qed.

(** C10: Elasticsearch.postprocess returns the backend response as it is. *)
Theorem elasticsearch_postprocess_identity (es_json : value) :
  Elasticsearch.postprocess es_json = es_json.
Proof. reflexivity. Qed.

(** ** More on DatasetsList.postprocess *)

(** Membership of a literal in a literal list. *)
Ltac elem_of_literal :=
  apply list_elem_of_In; simpl; repeat (first [left; reflexivity | right]).

(** [k] differs from a literal of a list it is not in. *)
Ltac not_in_literal H :=
  let E := fresh in intros E; apply H; rewrite E; elem_of_literal.

Lemma for_each_inr {A B} (f : A → result B) (items : list A) (ys : list B) :
  for_each f items = inr ys ↔ Forall2 (λ x y, f x = inr y) items ys.
Proof.
  revert ys. induction items as [|x items IH]; intros ys; simpl.
  - split.
    + intros [= <-]. constructor.
    + intros H. apply Forall2_nil_inv_l in H as ->. reflexivity.
  - split.
    + destruct (f x) as [e|y] eqn:Ey; cbn [bind]; [discriminate|].
      destruct (for_each f items) as [e|ys'] eqn:Eys; cbn [bind ret]; [discriminate|].
      intros [= <-]. constructor; [exact Ey | by apply IH].
    + intros H. apply Forall2_cons_inv_l in H as (y & ys' & Hy & Hys & ->).
      rewrite Hy. cbn [bind]. apply IH in Hys as ->. reflexivity.
Qed.

Lemma for_each_inl {A B} (f : A → result B) (pre post : list A) (bad : A) (e : exn) :
  Forall (λ x, ∃ y, f x = inr y) pre →
  f bad = inl e →
  for_each f (pre ++ bad :: post) = inl e.
Proof.
  intros Hpre Hbad. induction Hpre as [|x pre (y & Hy) _ IH]; simpl.
  - rewrite Hbad. reflexivity.
  - rewrite Hy. cbn [bind]. rewrite IH. reflexivity.
Qed.

Section PostprocessFacts.

Variable parser_parse : string → option datetime.
Variable utc_of_timestamp : Z → datetime.

Abbreviation postprocess_hit' :=
  (DatasetsList.postprocess_hit parser_parse utc_of_timestamp).
Abbreviation postprocess' :=
  (DatasetsList.postprocess parser_parse utc_of_timestamp).

Lemma postprocess_list (es_json : value) (hits : list value) :
  lookup_path ["hits"; "hits"] es_json = Some (VList hits) →
  postprocess' es_json = for_each postprocess_hit' hits.
Proof.
  intros Hhits.
  apply lookup_path_dict in Hhits as (outer & w & -> & Houter & Hhits).
  apply lookup_path_dict in Hhits as (inner & w' & -> & Hinner & [= ->]).
  unfold DatasetsList.postprocess.
  rewrite (getitem_dict _ _ _ Houter). cbn [bind].
  rewrite (getitem_dict _ _ _ Hinner). cbn [bind ret len iterate].
  unfold jsonify. by destruct (for_each _ hits).
Qed.

(** X1: on a response whose hits are a list, postprocess returns exactly
    the list of the records of the hits, one per hit and in the order of
    the hits; each record depends on its own hit only. *)
Theorem postprocess_records (es_json : value) (hits : list value)
    (records : list (gmap string value)) :
  lookup_path ["hits"; "hits"] es_json = Some (VList hits) →
  postprocess' es_json = inr records ↔
  Forall2 (λ hit r, postprocess_hit' hit = inr r) hits records.
Proof.
  intros Hhits. rewrite (postprocess_list _ _ Hhits). apply for_each_inr.
Qed.

(** X2: the first hit whose processing raises aborts the whole response
    with that exception, whatever the hits after it hold; no partial list
    is returned. *)
Theorem postprocess_fail_fast (es_json : value) (pre post : list value)
    (bad : value) (e : exn) :
  lookup_path ["hits"; "hits"] es_json = Some (VList (pre ++ bad :: post)) →
  Forall (λ hit, ∃ r, postprocess_hit' hit = inr r) pre →
  postprocess_hit' bad = inl e →
  postprocess' es_json = inl e.
Proof.
  intros Hhits Hpre Hbad. rewrite (postprocess_list _ _ Hhits).
  by apply for_each_inl.
Qed.

(** X3: a response object without "hits", or whose "hits" object has no
    inner "hits", raises KeyError for "hits". *)
Theorem postprocess_missing_hits (es_json : value) :
  is_dict es_json = true →
  match lookup_path ["hits"] es_json with
  | Some inner => is_dict inner = true
  | None => True
  end →
  lookup_path ["hits"; "hits"] es_json = None →
  postprocess' es_json = inl (KeyError "hits").
Proof.
  destruct es_json as [| | | | |outer|]; try discriminate. intros _.
  unfold DatasetsList.postprocess. cbn [lookup_path getitem].
  destruct (outer !! "hits") as [inner|]; cbn [mbind option_bind bind raise ret]; [|done].
  destruct inner as [| | | | |inner|]; try discriminate. intros _.
  cbn [lookup_path getitem].
  destruct (inner !! "hits"); cbn [mbind option_bind bind raise ret]; [discriminate|done].
Qed.

Lemma postprocess_hit_str (k : string) : postprocess_hit' (VStr k) = inl TypeError.
Proof. reflexivity. Qed.

(** X4: when the inner "hits" value is not a list, postprocess raises
    TypeError, except for an empty object or an empty string, for which it
    returns the empty list. *)
Theorem postprocess_non_list_hits (es_json v : value) :
  lookup_path ["hits"; "hits"] es_json = Some v →
  is_list v = false →
  postprocess' es_json = if is_empty v then inr [] else inl TypeError.
Proof.
  intros Hhits Hv.
  apply lookup_path_dict in Hhits as (outer & w & -> & Houter & Hhits).
  apply lookup_path_dict in Hhits as (inner & w' & -> & Hinner & [= ->]).
  unfold DatasetsList.postprocess.
  rewrite (getitem_dict _ _ _ Houter). cbn [bind].
  rewrite (getitem_dict _ _ _ Hinner). cbn [bind].
  destruct v as [| | |s|l|d|]; try discriminate; try reflexivity.
  - by destruct s.
  - cbn [len bind ret iterate is_empty].
    destruct (map_to_list d) as [|[k x] kvs] eqn:El.
    + apply map_to_list_empty_iff in El as ->. reflexivity.
    + rewrite bool_decide_eq_false_2; [reflexivity|].
      intros Hsz. apply map_size_empty_iff in Hsz as ->.
      by rewrite map_to_list_empty in El.
Qed.

Lemma is_Some_add_opt (out k : string) (o : option value) (d : gmap string value) :
  is_Some (add_opt out o d !! k) → k = out ∨ is_Some (d !! k).
Proof.
  destruct o as [v|]; simpl; [|by right].
  destruct (decide (out = k)) as [->|Hne]; [by left|].
  rewrite lookup_insert_ne by done. by right.
Qed.

Lemma is_Some_add_opt_mono (out k : string) (o : option value) (d : gmap string value) :
  is_Some (d !! k) → is_Some (add_opt out o d !! k).
Proof.
  destruct o as [v|]; simpl; [|done].
  destruct (decide (out = k)) as [->|Hne].
  - rewrite lookup_insert_eq. eauto.
  - by rewrite lookup_insert_ne.
Qed.

Lemma base_record_keys (nm ctl st en id ts : value) (k : string) :
  is_Some (base_record nm ctl st en id ts !! k) ↔ k ∈ mandatory_keys.
Proof.
  unfold base_record, mandatory_keys. split.
  - intros H.
    repeat (apply lookup_insert_is_Some' in H as [<-|H]; [elem_of_literal|]).
    apply lookup_singleton_is_Some in H as <-. elem_of_literal.
  - intros H. repeat (apply elem_of_cons in H as [->|H]; [by eexists|]).
    by apply elem_of_nil in H.
Qed.

(** X5: the record of a processed hit has all seven mandatory keys, and no
    key outside the eleven documented ones. *)
Theorem postprocess_hit_keys (dataset : value) (d : gmap string value) :
  postprocess_hit' dataset = inr d →
  (∀ k : string, k ∈ mandatory_keys → is_Some (d !! k)) ∧
  (∀ k : string, is_Some (d !! k) → k ∈ (mandatory_keys ++ optional_keys)%list).
Proof.
  intros H.
  apply postprocess_hit_inv in H
    as (h & src & run & nm & ctl & st & en & id & ts & _ & _ & _ & _ & _ & _ & _ & _ & _ & ->).
  split.
  - intros k Hk. do 4 apply is_Some_add_opt_mono. by apply base_record_keys.
  - intros k Hk. unfold optional_keys.
    do 4 (apply is_Some_add_opt in Hk as [->|Hk]; [elem_of_literal|]).
    apply base_record_keys in Hk. apply elem_of_app. by left.
Qed.

(** X6: the record copies the mandatory run fields as they are in the
    source: key and run.name both hold run.name, and run.controller,
    run.start (the raw value, not a parsed date), run.end and id hold the
    run fields of the same names. *)
Theorem postprocess_hit_mandatory (dataset : value) (d : gmap string value) :
  postprocess_hit' dataset = inr d →
  d !! "key" = lookup_path ["_source"; "run"; "name"] dataset ∧
  d !! "run.name" = lookup_path ["_source"; "run"; "name"] dataset ∧
  d !! "run.controller" = lookup_path ["_source"; "run"; "controller"] dataset ∧
  d !! "run.start" = lookup_path ["_source"; "run"; "start"] dataset ∧
  d !! "run.end" = lookup_path ["_source"; "run"; "end"] dataset ∧
  d !! "id" = lookup_path ["_source"; "run"; "id"] dataset.
Proof.
  intros H.
  apply postprocess_hit_inv in H
    as (h & src & run & nm & ctl & st & en & id & ts & -> & Hsrc & Hrun
        & Hnm & Hctl & Hst & Hen & Hid & _ & ->).
  cbn [lookup_path]. rewrite Hsrc. cbn [mbind option_bind lookup_path].
  rewrite Hrun. cbn [mbind option_bind lookup_path].
  rewrite Hnm, Hctl, Hst, Hen, Hid. cbn [mbind option_bind].
  rewrite !lookup_add_opt_ne by done. repeat split; reflexivity.
Qed.

(** X7: when the run of a hit lacks one of name, controller, start, end
    and id, processing the hit raises KeyError for the first of them that
    is missing, in that order. *)
Theorem postprocess_hit_missing_field (dataset : value) (run : gmap string value)
    (k : string) :
  lookup_path ["_source"; "run"] dataset = Some (VDict run) →
  first_missing run_fields run = Some k →
  postprocess_hit' dataset = inl (KeyError k).
Proof.
  intros Hrun Hf.
  apply lookup_path_dict in Hrun as (h & srcv & -> & Hsrc & Hrun).
  apply lookup_path_dict in Hrun as (src & runv & -> & Hrun & [= ->]).
  unfold first_missing, run_fields in Hf. simpl in Hf.
  unfold DatasetsList.postprocess_hit.
  rewrite (getitem_dict _ _ _ Hsrc). cbn [bind].
  rewrite (getitem_dict _ _ _ Hrun). cbn [bind getitem].
  destruct (run !! "name"); cbn in Hf; cbn [bind ret raise];
    [|by injection Hf as <-].
  destruct (run !! "controller"); cbn in Hf; cbn [bind ret raise];
    [|by injection Hf as <-].
  destruct (run !! "start"); cbn in Hf; cbn [bind ret raise];
    [|by injection Hf as <-].
  destruct (run !! "end"); cbn in Hf; cbn [bind ret raise];
    [|by injection Hf as <-].
  destruct (run !! "id"); cbn in Hf; cbn [bind ret raise];
    [discriminate Hf|by injection Hf as <-].
Qed.

Lemma first_missing_None (keys : list string) (m : gmap string value) :
  first_missing keys m = None → Forall (λ k, is_Some (m !! k)) keys.
Proof.
  unfold first_missing. induction keys as [|k keys IH]; simpl; [constructor|].
  destruct (m !! k) as [v|] eqn:E; cbn; [|discriminate].
  intros H. constructor; [by rewrite E | by apply IH].
Qed.

(** A hit whose run has the five fields is processed up to the timestamp,
    which is read from the sort list; the rest only adds optional keys. *)
Lemma postprocess_hit_run (h src run : gmap string value) :
  h !! "_source" = Some (VDict src) →
  src !! "run" = Some (VDict run) →
  first_missing run_fields run = None →
  ∃ nm ctl st en id,
    postprocess_hit' (VDict h)
    = (let* ts := (let* sort := getitem (VDict h) "sort" in getitem0 sort) in
       let d := add_opt "run.prefix" (run !! "prefix")
                  (add_opt "run.config" (run !! "config")
                     (base_record nm ctl st en id ts)) in
       match src !! "@metadata" with
       | Some meta =>
           let* d := DatasetsList.copy_if_present "controller_dir"
                       "@metadata.controller_dir" meta d in
           DatasetsList.copy_if_present "satellite" "@metadata.satellite" meta d
       | None => ret d
       end).
Proof.
  intros Hsrc Hrun Hf. apply first_missing_None in Hf.
  unfold run_fields in Hf.
  repeat (apply Forall_cons in Hf as [[? ?] Hf]).
  eexists _, _, _, _, _.
  unfold DatasetsList.postprocess_hit.
  rewrite (getitem_dict _ _ _ Hsrc). cbn [bind].
  rewrite (getitem_dict _ _ _ Hrun). cbn [bind].
  repeat (erewrite getitem_dict by eassumption; cbn [bind]).
  rewrite start_timestamp_falls_back.
  destruct (let* sort := getitem (VDict h) "sort" in getitem0 sort) as [e|ts];
    cbn [bind]; [reflexivity|].
  rewrite copy_if_present_dict. cbn [bind].
  rewrite copy_if_present_dict. cbn [bind contains ret].
  destruct (src !! "@metadata") as [meta|] eqn:Em; [|reflexivity].
  cbn [getitem]. rewrite Em. reflexivity.
Qed.

(** X8: a hit whose run has the five fields still needs its sort list,
    whatever run.start holds: without a "sort" key processing raises
    KeyError for "sort", with an empty sort list IndexError, and with a
    null sort TypeError. *)
Theorem postprocess_hit_needs_sort (dataset : value) (run : gmap string value) :
  lookup_path ["_source"; "run"] dataset = Some (VDict run) →
  first_missing run_fields run = None →
  (lookup_path ["sort"] dataset = None →
     postprocess_hit' dataset = inl (KeyError "sort")) ∧
  (lookup_path ["sort"] dataset = Some (VList []) →
     postprocess_hit' dataset = inl IndexError) ∧
  (lookup_path ["sort"] dataset = Some VNone →
     postprocess_hit' dataset = inl TypeError).
Proof.
  intros Hrun Hf.
  apply lookup_path_dict in Hrun as (h & srcv & -> & Hsrc & Hrun).
  apply lookup_path_dict in Hrun as (src & runv & -> & Hrun & [= ->]).
  destruct (postprocess_hit_run h src run Hsrc Hrun Hf)
    as (nm & ctl & st & en & id & ->).
  cbn [lookup_path getitem].
  destruct (h !! "sort") as [s|]; cbn [mbind option_bind bind raise ret].
  - split; [discriminate|]. split; by intros [= ->].
  - split; [reflexivity|]. split; discriminate.
Qed.

(** X9: a hit that is otherwise complete but whose @metadata is null, a
    boolean, a number or a date makes processing raise TypeError. *)
Theorem postprocess_hit_scalar_metadata (dataset meta : value)
    (run : gmap string value) :
  lookup_path ["_source"; "run"] dataset = Some (VDict run) →
  first_missing run_fields run = None →
  is_Some (sort_key dataset) →
  lookup_path ["_source"; "@metadata"] dataset = Some meta →
  is_scalar meta = true →
  postprocess_hit' dataset = inl TypeError.
Proof.
  intros Hrun Hf [ts Hts] Hmeta Hsc.
  apply lookup_path_dict in Hrun as (h & srcv & -> & Hsrc & Hrun).
  apply lookup_path_dict in Hrun as (src & runv & -> & Hrun & [= ->]).
  destruct (postprocess_hit_run h src run Hsrc Hrun Hf)
    as (nm & ctl & st & en & id & ->).
  cbn [lookup_path] in Hmeta. rewrite Hsrc in Hmeta.
  cbn [mbind option_bind lookup_path] in Hmeta.
  destruct (src !! "@metadata") as [m|]; [|discriminate].
  injection Hmeta as ->.
  unfold sort_key in Hts. cbn [lookup_path] in Hts. cbn [getitem].
  destruct (h !! "sort") as [[| | | |[|k ?]| |]|]; try discriminate.
  cbn [bind ret getitem0].
  destruct meta; try discriminate; reflexivity.
Qed.

(** X10: a run field other than the seven the loop body reads has no
    effect on what a hit yields, record or exception. *)
Theorem postprocess_hit_ignores_run_field (h src run : gmap string value)
    (k : string) (v : value) :
  h !! "_source" = Some (VDict src) →
  src !! "run" = Some (VDict run) →
  k ∉ (run_fields ++ ["config"; "prefix"])%list →
  postprocess_hit' (with_run h src (<[k := v]> run)) = postprocess_hit' (VDict h).
Proof.
  intros Hsrc Hrun Hk.
  assert (k ≠ "name") by not_in_literal Hk.
  assert (k ≠ "controller") by not_in_literal Hk.
  assert (k ≠ "start") by not_in_literal Hk.
  assert (k ≠ "end") by not_in_literal Hk.
  assert (k ≠ "id") by not_in_literal Hk.
  assert (k ≠ "config") by not_in_literal Hk.
  assert (k ≠ "prefix") by not_in_literal Hk.
  unfold with_run, DatasetsList.postprocess_hit.
  cbn [getitem]. rewrite lookup_insert_eq, Hsrc. cbn [bind ret getitem].
  rewrite lookup_insert_eq, Hrun. cbn [bind ret getitem].
  rewrite !(lookup_insert_ne run k) by done.
  destruct (run !! "name"); cbn [bind ret raise]; [|reflexivity].
  destruct (run !! "controller"); cbn [bind ret raise]; [|reflexivity].
  destruct (run !! "start"); cbn [bind ret raise]; [|reflexivity].
  destruct (run !! "end"); cbn [bind ret raise]; [|reflexivity].
  destruct (run !! "id"); cbn [bind ret raise]; [|reflexivity].
  rewrite !start_timestamp_falls_back. cbn [getitem].
  rewrite (lookup_insert_ne h "_source" "sort") by done.
  destruct (h !! "sort") as [s|]; cbn [bind ret raise]; [|reflexivity].
  destruct (getitem0 s); cbn [bind]; [reflexivity|].
  rewrite !copy_if_present_dict. cbn [bind].
  rewrite !copy_if_present_dict. cbn [bind contains ret getitem].
  rewrite !(lookup_insert_ne run k) by done.
  rewrite !(lookup_insert_ne src "run" "@metadata") by done.
  reflexivity.
Qed.

End PostprocessFacts.

(** ** More on DatasetsList.assemble *)

Section AssembleFacts.

Variable gen_month_range : string → value → value → result string.
Variable get_user_term : value → result value.

Abbreviation assemble' := (DatasetsList.assemble gen_month_range get_user_term).

(** X11: when the payload lacks one of user, controller, start and end,
    assemble raises KeyError for the first of them that is missing, in
    that order, whatever the two inherited helpers would do. *)
Theorem assemble_missing_key (json_data : gmap string value) (k : string) :
  first_missing assemble_keys json_data = Some k →
  assemble' json_data = inl (KeyError k).
Proof.
  unfold first_missing, assemble_keys, DatasetsList.assemble. simpl.
  destruct (json_data !! "user"); cbn; [|by intros [= <-]].
  destruct (json_data !! "controller"); cbn; [|by intros [= <-]].
  destruct (json_data !! "start"); cbn; [|by intros [= <-]].
  destruct (json_data !! "end"); cbn; [discriminate|by intros [= <-]].
Qed.

(** X12: with the four keys present, an exception raised by the index
    naming helper, or by the ownership helper once the index naming has
    returned, is the exception assemble raises. *)
Theorem assemble_helper_error (json_data : gmap string value)
    (user controller start end_ : value) (e : exn) :
  json_data !! "user" = Some user →
  json_data !! "controller" = Some controller →
  json_data !! "start" = Some start →
  json_data !! "end" = Some end_ →
  gen_month_range ".v6.run-data." start end_ = inl e ∨
  ((∃ frag, gen_month_range ".v6.run-data." start end_ = inr frag) ∧
   get_user_term user = inl e) →
  assemble' json_data = inl e.
Proof.
  intros Huser Hc Hstart Hend Herr.
  unfold DatasetsList.assemble.
  rewrite (getitem_dict _ _ _ Huser), (getitem_dict _ _ _ Hc),
    (getitem_dict _ _ _ Hstart), (getitem_dict _ _ _ Hend). cbn [bind].
  destruct Herr as [->|[[frag ->] ->]]; reflexivity.
Qed.

(** X13: a payload key other than user, controller, start and end has no
    effect on what assemble returns or raises. *)
Theorem assemble_ignores_key (json_data : gmap string value) (k : string) (v : value) :
  k ∉ assemble_keys →
  assemble' (<[k := v]> json_data) = assemble' json_data.
Proof.
  intros Hk.
  assert (k ≠ "user") by not_in_literal Hk.
  assert (k ≠ "controller") by not_in_literal Hk.
  assert (k ≠ "start") by not_in_literal Hk.
  assert (k ≠ "end") by not_in_literal Hk.
  unfold DatasetsList.assemble. cbn [getitem].
  rewrite !(lookup_insert_ne json_data k) by done. reflexivity.
Qed.

Variable parser_parse : string → option datetime.
Variable validate_user : value → option string.

(** X17: for a payload accepted by the schema of DatasetsList.__init__,
    assemble never raises KeyError for a missing key: whatever it raises
    was raised by one of the two inherited helpers, applied to the
    payload's start and end or to its user. *)
Theorem assemble_validated_error (payload : value) (P : gmap string value) (e : exn) :
  validate parser_parse validate_user DatasetsList.schema payload = inr P →
  assemble' P = inl e →
  ∃ user start end_,
    P !! "user" = Some user ∧ P !! "start" = Some start ∧ P !! "end" = Some end_ ∧
    (gen_month_range ".v6.run-data." start end_ = inl e ∨
     get_user_term user = inl e).
Proof.
  intros Hval.
  unfold validate in Hval. destruct payload as [| | | | |P0|]; try discriminate.
  destruct (missing DatasetsList.schema P0) eqn:Hm; [|discriminate].
  assert (∀ p, p ∈ parameters DatasetsList.schema →
               ∃ v, P !! name p = Some v) as Hall.
  { intros p Hp.
    assert (required p = true) as Hreq.
    { unfold DatasetsList.schema in Hp. cbn [parameters] in Hp.
      repeat (apply elem_of_cons in Hp as [->|Hp]; [reflexivity|]).
      by apply elem_of_nil in Hp. }
    destruct (missing_nil _ _ Hm p Hp Hreq) as (v & Hv & Hnn).
    destruct (proj2 (convert_all_presence _ _ _ _ _ (name p) Hval)) as (v' & Hv' & _);
      eauto. }
  destruct (Hall (mk_Param "user" USER true)) as [user Huser]; [elem_of_literal|].
  destruct (Hall (mk_Param "controller" STRING true)) as [ctl Hctl]; [elem_of_literal|].
  destruct (Hall (mk_Param "start" DATE true)) as [start Hstart]; [elem_of_literal|].
  destruct (Hall (mk_Param "end" DATE true)) as [end_ Hend]; [elem_of_literal|].
  cbn [name] in *.
  unfold DatasetsList.assemble.
  rewrite (getitem_dict _ _ _ Huser), (getitem_dict _ _ _ Hctl),
    (getitem_dict _ _ _ Hstart), (getitem_dict _ _ _ Hend). cbn [bind].
  intros Herr. exists user, start, end_. repeat (split; [done|]).
  destruct (gen_month_range ".v6.run-data." start end_) as [e1|frag];
    cbn [bind] in Herr; [left; congruence|].
  destruct (get_user_term user) as [e2|term]; cbn [bind] in Herr;
    [right; congruence|discriminate].
Qed.

End AssembleFacts.

(** ** More on Elasticsearch.assemble *)

(** X14: Elasticsearch.assemble raises only when "indices" is missing, and
    then it is KeyError for "indices"; a null "indices" is passed on. *)
Theorem elasticsearch_assemble_error (json_data : gmap string value) (e : exn) :
  Elasticsearch.assemble json_data = inl e ↔
  json_data !! "indices" = None ∧ e = KeyError "indices".
Proof.
  unfold Elasticsearch.assemble. cbn [getitem].
  destruct (json_data !! "indices"); cbn [bind ret raise]; split.
  - discriminate.
  - intros [? _]. discriminate.
  - by intros [= <-].
  - by intros [_ ->].
Qed.

(** X15: for "payload" and for "params", a key bound to null and a key
    that is absent give the same result. *)
Theorem elasticsearch_assemble_null_absent (json_data : gmap string value)
    (k : string) :
  k = "payload" ∨ k = "params" →
  Elasticsearch.assemble (<[k := VNone]> json_data)
  = Elasticsearch.assemble (delete k json_data).
Proof.
  intros [-> | ->]; unfold Elasticsearch.assemble, dict_get; cbn [getitem].
  - rewrite lookup_insert_eq, lookup_delete_eq.
    rewrite !(lookup_insert_ne json_data "payload") by done.
    rewrite !(lookup_delete_ne json_data "payload") by done. reflexivity.
  - rewrite lookup_insert_eq, lookup_delete_eq.
    rewrite !(lookup_insert_ne json_data "params") by done.
    rewrite !(lookup_delete_ne json_data "params") by done. reflexivity.
Qed.

(** X16: a key other than indices, payload and params has no effect on
    what Elasticsearch.assemble returns or raises. *)
Theorem elasticsearch_assemble_ignores_key (json_data : gmap string value)
    (k : string) (v : value) :
  k ∉ ["indices"; "payload"; "params"] →
  Elasticsearch.assemble (<[k := v]> json_data) = Elasticsearch.assemble json_data.
Proof.
  intros Hk.
  assert (k ≠ "indices") by not_in_literal Hk.
  assert (k ≠ "payload") by not_in_literal Hk.
  assert (k ≠ "params") by not_in_literal Hk.
  unfold Elasticsearch.assemble, dict_get. cbn [getitem].
  rewrite !(lookup_insert_ne json_data k) by done. reflexivity.
Qed.

(** ** Concrete runs of the lemmas above *)

Lemma postprocess_records_witness :
  lookup_path ["hits"; "hits"] (response [sample_hit]) = Some (VList [sample_hit]) ∧
  (DatasetsList.postprocess toy_parse toy_utc (response [sample_hit])
     = inr [sample_record] ↔
   Forall2 (λ hit r, DatasetsList.postprocess_hit toy_parse toy_utc hit = inr r)
     [sample_hit] [sample_record]).
Proof.
  split; [reflexivity|].
  apply (postprocess_records toy_parse toy_utc (response [sample_hit])
           [sample_hit] [sample_record]).
  reflexivity.
Defined.

Lemma postprocess_fail_fast_witness :
  let es_json := response [sample_hit; unsorted_hit; sample_hit] in
  lookup_path ["hits"; "hits"] es_json
    = Some (VList ([sample_hit] ++ unsorted_hit :: [sample_hit])%list) ∧
  DatasetsList.postprocess toy_parse toy_utc es_json = inl (KeyError "sort").
Proof.
  intros es_json. split; [reflexivity|].
  apply (postprocess_fail_fast toy_parse toy_utc es_json
           [sample_hit] [sample_hit] unsorted_hit (KeyError "sort")).
  - reflexivity.
  - apply Forall_cons. split; [|apply Forall_nil_2].
    exists sample_record. vm_compute. reflexivity.
  - vm_compute. reflexivity.
Defined.

Lemma postprocess_missing_hits_witness :
  is_dict (VDict ∅) = true ∧
  DatasetsList.postprocess toy_parse toy_utc (VDict ∅) = inl (KeyError "hits").
Proof.
  split; [reflexivity|].
  apply (postprocess_missing_hits toy_parse toy_utc (VDict ∅));
    [reflexivity | exact I | reflexivity].
Defined.

Lemma postprocess_non_list_hits_witness :
  lookup_path ["hits"; "hits"] null_hits_response = Some VNone ∧
  is_list VNone = false ∧
  DatasetsList.postprocess toy_parse toy_utc null_hits_response
    = (if is_empty VNone then inr [] else inl TypeError).
Proof.
  split; [reflexivity|]. split; [reflexivity|].
  apply (postprocess_non_list_hits toy_parse toy_utc null_hits_response VNone);
    reflexivity.
Defined.

Lemma postprocess_hit_keys_witness :
  DatasetsList.postprocess_hit toy_parse toy_utc sample_hit = inr sample_record ∧
  (∀ k : string, k ∈ mandatory_keys → is_Some (sample_record !! k)) ∧
  (∀ k : string, is_Some (sample_record !! k) →
                 k ∈ (mandatory_keys ++ optional_keys)%list).
Proof.
  split; [exact sample_hit_record|].
  apply (postprocess_hit_keys toy_parse toy_utc sample_hit sample_record).
  exact sample_hit_record.
Defined.

Lemma postprocess_hit_mandatory_witness :
  DatasetsList.postprocess_hit toy_parse toy_utc sample_hit = inr sample_record ∧
  sample_record !! "key" = lookup_path ["_source"; "run"; "name"] sample_hit ∧
  sample_record !! "run.name" = lookup_path ["_source"; "run"; "name"] sample_hit ∧
  sample_record !! "run.controller"
    = lookup_path ["_source"; "run"; "controller"] sample_hit ∧
  sample_record !! "run.start" = lookup_path ["_source"; "run"; "start"] sample_hit ∧
  sample_record !! "run.end" = lookup_path ["_source"; "run"; "end"] sample_hit ∧
  sample_record !! "id" = lookup_path ["_source"; "run"; "id"] sample_hit.
Proof.
  split; [exact sample_hit_record|].
  apply (postprocess_hit_mandatory toy_parse toy_utc sample_hit sample_record).
  exact sample_hit_record.
Defined.

Lemma postprocess_hit_missing_field_witness :
  lookup_path ["_source"; "run"] short_hit = Some (VDict short_run) ∧
  first_missing run_fields short_run = Some "end" ∧
  DatasetsList.postprocess_hit toy_parse toy_utc short_hit = inl (KeyError "end").
Proof.
  split; [reflexivity|]. split; [reflexivity|].
  apply (postprocess_hit_missing_field toy_parse toy_utc short_hit short_run "end");
    reflexivity.
Defined.

Lemma postprocess_hit_needs_sort_witness :
  lookup_path ["_source"; "run"] unsorted_hit = Some (VDict unparseable_run) ∧
  first_missing run_fields unparseable_run = None ∧
  lookup_path ["sort"] unsorted_hit = None ∧
  DatasetsList.postprocess_hit toy_parse toy_utc unsorted_hit = inl (KeyError "sort").
Proof.
  split; [reflexivity|]. split; [reflexivity|]. split; [reflexivity|].
  apply (postprocess_hit_needs_sort toy_parse toy_utc unsorted_hit unparseable_run);
    reflexivity.
Defined.

Lemma postprocess_hit_scalar_metadata_witness :
  lookup_path ["_source"; "run"] null_metadata_hit = Some (VDict sample_run) ∧
  first_missing run_fields sample_run = None ∧
  is_Some (sort_key null_metadata_hit) ∧
  lookup_path ["_source"; "@metadata"] null_metadata_hit = Some VNone ∧
  is_scalar VNone = true ∧
  DatasetsList.postprocess_hit toy_parse toy_utc null_metadata_hit = inl TypeError.
Proof.
  assert (is_Some (sort_key null_metadata_hit)) as Hs by (by eexists).
  repeat (split; [first [exact Hs | reflexivity]|]).
  apply (postprocess_hit_scalar_metadata toy_parse toy_utc null_metadata_hit
           VNone sample_run); first [exact Hs | reflexivity].
Defined.

Lemma postprocess_hit_ignores_run_field_witness :
  sample_top !! "_source" = Some (VDict sample_src) ∧
  sample_src !! "run" = Some (VDict sample_run) ∧
  ("user" ∉ (run_fields ++ ["config"; "prefix"])%list) ∧
  DatasetsList.postprocess_hit toy_parse toy_utc
    (with_run sample_top sample_src (<[ "user" := VStr "drb" ]> sample_run))
  = DatasetsList.postprocess_hit toy_parse toy_utc (VDict sample_top).
Proof.
  assert ("user" ∉ (run_fields ++ ["config"; "prefix"])%list) as Hk.
  { intros H. apply list_elem_of_In in H. simpl in H.
    repeat (destruct H as [H|H]; [discriminate H|]). exact H. }
  split; [reflexivity|]. split; [reflexivity|]. split; [exact Hk|].
  apply (postprocess_hit_ignores_run_field toy_parse toy_utc
           sample_top sample_src sample_run "user" (VStr "drb"));
    first [exact Hk | reflexivity].
Defined.

Lemma assemble_missing_key_witness :
  first_missing assemble_keys {[ "user" := VStr "drb" ]} = Some "controller" ∧
  DatasetsList.assemble toy_month_range toy_user_term {[ "user" := VStr "drb" ]}
    = inl (KeyError "controller").
Proof.
  split; [reflexivity|].
  apply (assemble_missing_key toy_month_range toy_user_term
           {[ "user" := VStr "drb" ]} "controller").
  reflexivity.
Defined.

Lemma assemble_helper_error_witness :
  failing_month_range ".v6.run-data."
    (VDate (mk_datetime 2020 1 1 0 0 0 0)) (VDate (mk_datetime 2020 1 31 0 0 0 0))
    = inl TypeError ∧
  DatasetsList.assemble failing_month_range toy_user_term sample_validated
    = inl TypeError.
Proof.
  split; [reflexivity|].
  apply (assemble_helper_error failing_month_range toy_user_term sample_validated
           (VStr "drb") (VStr "host1")
           (VDate (mk_datetime 2020 1 1 0 0 0 0))
           (VDate (mk_datetime 2020 1 31 0 0 0 0)) TypeError);
    first [reflexivity | left; reflexivity].
Defined.

Lemma assemble_ignores_key_witness :
  ("verbose" ∉ assemble_keys) ∧
  DatasetsList.assemble toy_month_range toy_user_term
    (<[ "verbose" := VBool true ]> sample_validated)
  = DatasetsList.assemble toy_month_range toy_user_term sample_validated.
Proof.
  assert ("verbose" ∉ assemble_keys) as Hk.
  { intros H. apply list_elem_of_In in H. simpl in H.
    repeat (destruct H as [H|H]; [discriminate H|]). exact H. }
  split; [exact Hk|].
  apply (assemble_ignores_key toy_month_range toy_user_term sample_validated
           "verbose" (VBool true)).
  exact Hk.
Defined.

Lemma assemble_validated_error_witness :
  validate toy_parse ok DatasetsList.schema (VDict sample_payload)
    = inr sample_validated ∧
  DatasetsList.assemble failing_month_range toy_user_term sample_validated
    = inl TypeError ∧
  ∃ user start end_,
    sample_validated !! "user" = Some user ∧
    sample_validated !! "start" = Some start ∧
    sample_validated !! "end" = Some end_ ∧
    (failing_month_range ".v6.run-data." start end_ = inl TypeError ∨
     toy_user_term user = inl TypeError).
Proof.
  assert (validate toy_parse ok DatasetsList.schema (VDict sample_payload)
            = inr sample_validated) as Hv by (vm_compute; reflexivity).
  assert (DatasetsList.assemble failing_month_range toy_user_term sample_validated
            = inl TypeError) as He by reflexivity.
  split; [exact Hv|]. split; [exact He|].
  exact (assemble_validated_error failing_month_range toy_user_term toy_parse ok
           (VDict sample_payload) sample_validated TypeError Hv He).
Defined.

Lemma elasticsearch_assemble_null_absent_witness :
  let json_data : gmap string value :=
    <[ "indices" := VStr "run-data" ]> {[ "payload" := VDict {[ "size" := VInt 1 ]} ]} in
  ("payload" = "payload" ∨ "payload" = "params") ∧
  Elasticsearch.assemble (<[ "payload" := VNone ]> json_data)
  = Elasticsearch.assemble (delete "payload" json_data).
Proof.
  intros json_data. split; [by left|].
  apply (elasticsearch_assemble_null_absent json_data "payload"). by left.
Defined.

Lemma elasticsearch_assemble_ignores_key_witness :
  ("user" ∉ ["indices"; "payload"; "params"]) ∧
  Elasticsearch.assemble (<[ "user" := VStr "drb" ]> {[ "indices" := VStr "run-data" ]})
  = Elasticsearch.assemble {[ "indices" := VStr "run-data" ]}.
Proof.
  assert ("user" ∉ ["indices"; "payload"; "params"]) as Hk.
  { intros H. apply list_elem_of_In in H. simpl in H.
    repeat (destruct H as [H|H]; [discriminate H|]). exact H. }
  split; [exact Hk|].
  apply (elasticsearch_assemble_ignores_key {[ "indices" := VStr "run-data" ]}
           "user" (VStr "drb")).
  exact Hk.
Defined.
